(** * bot.py: a nutrition-tracking Telegram bot

    A shallow embedding of the bot's handlers ([start], [add_product],
    [report]), of its SQLite ledger (tables [users] and [entries]) and of the
    daily job ([scheduled_daily_report]), followed by the properties of the
    ledger, of the reports and of the broadcast cycle.

    Python [float]s are IEEE binary64 numbers, modelled by Rocq's primitive
    floats.  A Python [str] is modelled by the byte string of its UTF-8
    encoding.  A SQLite table is the list of its rows, a new row being put
    last; no property below depends on the order in which a [SELECT]
    without [ORDER BY] returns the rows of [users].  The outside world
    (Telegram, the translator, the Edamam HTTP API, the clock) enters every
    handler as an explicit argument; the calls to [logger] are left out. *)

From Stdlib Require Import ZArith Floats Ascii DecimalString.
From stdpp Require Import gmap strings list.

(** ** The Python runtime

    The built-in string and number operations the bot calls.  They belong to
    the interpreter, not to the bot: the bot's code is modelled over any
    implementation of them, and [Reference] below gives an executable one. *)

Class PyRuntime := {
  (** [s.lower()] *)
  str_lower : string → string;
  (** [s.strip()] *)
  str_strip : string → string;
  (** [s.split()] *)
  str_split : string → list string;
  (** [s.capitalize()] *)
  str_capitalize : string → string;
  (** [float(s)]; [None] when it raises [ValueError] *)
  py_float : string → option float;
  (** [f"{x}"] for a float [x] *)
  str_of_float : float → string;
  (** [f"{x:.2f}"] *)
  format_2f : float → string;
}.

(** The line feed of the Python literals' [\n]. *)
Definition nl : string := String (Ascii.ascii_of_nat 10) EmptyString.

(** [sep.join(l)] *)
Definition join (sep : string) (l : list string) : string := String.concat sep l.

(** [l[-1]] of a list of strings known to be non-empty. *)
Definition last_part (l : list string) : string := List.last l "".

(** [l[:-1]] *)
Definition but_last (l : list string) : list string := removelast l.

(** ** Messages *)

(** A text handed to Telegram, with the [parse_mode] keyword when given.
    A handler replies as its last step, after its writes are committed: the
    model returns the reply next to the database. *)
Record message := { text : string; parse_mode : option string }.

(** [reply_text(t)] and [send_message(text=t)] *)
Definition plain (t : string) : message := {| text := t; parse_mode := None |}.

(** [reply_text(t, parse_mode='Markdown')] *)
Definition markdown (t : string) : message :=
  {| text := t; parse_mode := Some "Markdown" |}.

(** What a handler reads of its [Update]. *)
Record update := {
  message_text : string;    (* update.message.text *)
  effective_user : Z;       (* update.effective_user.id *)
  effective_chat : Z;       (* update.effective_chat.id *)
}.

Definition WELCOME : string :=
  "Добро пожаловать в бот 'Здоровое питание'!" +:+ nl +:+
  "Отправьте название продукта и его количество, например:" +:+ nl +:+
  "яблоко 200" +:+ nl +:+
  "рис 100" +:+ nl +:+
  "куриная грудка 200" +:+ nl +:+ nl +:+
  "Используйте команду /help для просмотра всех доступных команд.".

Definition HELP_TEXT : string :=
  "📖 *Доступные команды:*" +:+ nl +:+ nl +:+
  "/start - Начать работу с ботом" +:+ nl +:+
  "/help - Показать список доступных команд" +:+ nl +:+
  "/report - Получить отчет о потребленных КБЖУ за сегодня" +:+ nl +:+ nl +:+
  "💬 *Использование:* Отправьте название продукта и его количество, например:" +:+ nl +:+
  "`яблоко 200`" +:+ nl +:+
  "`рис 100`" +:+ nl +:+
  "`куриная грудка 200`".

Definition ASK_INPUT : string :=
  "Пожалуйста, введите название продукта и его количество, например: яблоко 200".
Definition ASK_TWO_PARTS : string :=
  "Пожалуйста, введите продукт и его количество, например: яблоко 200".
Definition ASK_RANGE : string :=
  "Пожалуйста, введите количество от 1 до 5000 грамм.".
Definition ASK_NUMBER : string :=
  "Пожалуйста, введите корректное количество, например: 100".
Definition TRANSLATION_ERROR : string :=
  "Произошла ошибка при переводе названия продукта. Попробуйте снова.".
Definition TRANSLATION_EMPTY : string :=
  "Не удалось перевести название продукта. Проверьте ввод и попробуйте снова.".
Definition LOOKUP_FAILED : string :=
  "Извините, не удалось получить информацию о продукте. Проверьте название и попробуйте снова.".
Definition NOTHING_TODAY : string :=
  "Вы ничего не записали сегодня.".
Definition UNKNOWN_COMMAND : string :=
  "Извините, я не понимаю эту команду. Отправьте название продукта и его количество, например: яблоко 200".

(** ** Configuration (module level, lines 17-26) *)

Inductive exn :=
| ValueError (msg : string).

Inductive outcome (A : Type) :=
| Returned (a : A)
| Raised (e : exn).
Arguments Returned {A} a.
Arguments Raised {A} e.

Record config := {
  EDAMAM_APP_ID : string;
  EDAMAM_APP_KEY : string;
  BOT_TOKEN : string;
}.

(** [os.getenv(name)]: the process environment after [load_dotenv()]. *)
Definition getenv (environ : gmap string string) (name : string) : option string :=
  environ !! name.

(** Truth value of an [Optional[str]]: [None] and [''] are false. *)
Definition truthy (v : option string) : bool :=
  match v with
  | None => false
  | Some s => negb (String.eqb s "")
  end.

Definition CONFIG_ERROR : string :=
  "Пожалуйста, убедитесь, что все необходимые переменные окружения заданы в .env файле.".

(** The three [os.getenv] reads and the [if not all([...]): raise]. *)
Definition load_config (environ : gmap string string) : outcome config :=
  let app_id := getenv environ "EDAMAM_APP_ID" in
  let app_key := getenv environ "EDAMAM_APP_KEY" in
  let bot_token := getenv environ "BOT_TOKEN" in
  if forallb truthy [app_id; app_key; bot_token]
  then Returned {| EDAMAM_APP_ID := default "" app_id;
                   EDAMAM_APP_KEY := default "" app_key;
                   BOT_TOKEN := default "" bot_token |}
  else Raised (ValueError CONFIG_ERROR).

(** ** The ledger (SQLite, lines 38-63) *)

(** A row of [users]. *)
Record user := { user_id : Z; chat_id : Z }.

(** A row of [entries]. *)
Record entry := {
  entry_id : Z;
  entry_user_id : Z;
  date : string;
  product : string;
  amount : float;
  calories : float;
  proteins : float;
  fats : float;
  carbs : float;
}.

(** The database file: both tables in storage order, and the AUTOINCREMENT
    counter of [entries] (the largest [entry_id] handed out so far). *)
Record database := {
  users : list user;
  entries : list entry;
  entries_seq : Z;
}.

(** What the two [CREATE TABLE IF NOT EXISTS] leave when the file is new. *)
Definition empty_database : database :=
  {| users := []; entries := []; entries_seq := 0 |}.

(** [SELECT * FROM users WHERE user_id = ?] followed by [fetchone()]. *)
Definition select_user (db : database) (uid : Z) : option user :=
  List.find (λ u, Z.eqb (user_id u) uid) (users db).

(** [INSERT INTO users (user_id, chat_id) VALUES (?, ?)].  The bot runs it
    only after [select_user] found no row, so the PRIMARY KEY constraint
    cannot fire there (see [register_user_unique]).  The new row is put
    last, while SQLite returns the rows of [users] by ascending [user_id]:
    the order of [users] is the program's when users register in ascending
    order, and no theorem below depends on it. *)
Definition insert_user (db : database) (uid cid : Z) : database :=
  {| users := users db ++ [{| user_id := uid; chat_id := cid |}];
     entries := entries db;
     entries_seq := entries_seq db |}.

(** The tuple [(product, amount, calories, proteins, fats, carbs)] of the
    nutrient columns, as the [SELECT]s of the reports return it. *)
Definition row : Type := string * float * float * float * float * float.

Definition row_of_entry (e : entry) : row :=
  (product e, amount e, calories e, proteins e, fats e, carbs e).

(** [SELECT product, amount, calories, proteins, fats, carbs FROM entries
     WHERE user_id = ? AND date = ?] followed by [fetchall()]. *)
Definition select_entries (db : database) (uid : Z) (date_str : string) : list row :=
  row_of_entry <$>
    filter (λ e, entry_user_id e = uid ∧ date e = date_str) (entries db).

(** [SELECT chat_id, user_id FROM users] followed by [fetchall()]. *)
Definition select_all_users (db : database) : list (Z * Z) :=
  (λ u, (chat_id u, user_id u)) <$> users db.

(** The dict [get_nutrition] returns, keys 'калории', 'белки', 'жиры',
    'углеводы'. *)
Record nutrition := {
  kalorii : float;
  belki : float;
  zhiry : float;
  uglevody : float;
}.

(** [INSERT INTO entries (user_id, date, product, amount, calories, proteins,
    fats, carbs) VALUES (...)]: the new row gets the next [entry_id].  The
    row holds the floats as they are written; what a REAL column gives back
    for them is [real_column] below (a NaN comes back as NULL, the negative
    zero as 0.0), and [fetchall] is the per-date query read through it. *)
Definition insert_entry (db : database) (uid : Z) (date_str : string)
    (name : string) (grams : float) (n : nutrition) : database :=
  let id := (entries_seq db + 1)%Z in
  {| users := users db;
     entries := entries db ++
       [{| entry_id := id; entry_user_id := uid; date := date_str;
           product := name; amount := grams;
           calories := kalorii n; proteins := belki n;
           fats := zhiry n; carbs := uglevody n |}];
     entries_seq := id |}.

(** The process after the module level has run: stopped by the exception of
    the configuration check, or serving with its configuration and the
    database, created when the file was not there. *)
Inductive process :=
| Stopped (e : exn)
| Serving (cfg : config) (db : database).

Definition boot (environ : gmap string string) (file : option database) : process :=
  match load_config environ with
  | Raised e => Stopped e
  | Returned cfg => Serving cfg (default empty_database file)
  end.

(** The block both [start] (lines 100-105) and [add_product] (lines 173-178)
    run: add the user if there is no row for it yet. *)
Definition register_user (db : database) (uid cid : Z) : database :=
  match select_user db uid with
  | None => insert_user db uid cid
  | Some _ => db
  end.

(** Lines 168-194 of [add_product]: register the user, then insert the
    entry. *)
Definition append_entry (db : database) (uid cid : Z) (date_str : string)
    (name : string) (grams : float) (n : nutrition) : database :=
  insert_entry (register_user db uid cid) uid date_str name grams n.

(** ** The lookup services *)

(** What [translator.translate(s)] does: it raises, or it returns a string
    or [None]. *)
Inductive translation :=
| TranslateRaises
| Translated (product_english : option string).

(** The JSON object of an Edamam answer, as far as [get_nutrition] reads it:
    the number under 'calories' and the dict under 'totalNutrients', which
    maps a nutrient code to a dict of numbers. *)
Record edamam_data := {
  data_calories : option float;
  data_totalNutrients : option (gmap string (gmap string float));
}.

(** What the [try] block of [get_nutrition] meets: [requests.get] or
    [raise_for_status] raise a [RequestException], anything else goes wrong
    while the answer is read, or the JSON object is there. *)
Inductive response :=
| RequestException
| OtherException
| Json (data : edamam_data).

(** The two external services a submission calls. *)
Record services := {
  translate : string → translation;
  (** [requests.get(url, params=params)], by [params] *)
  requests_get : gmap string string → response;
}.

Section Bot.
Context `{PyRuntime}.

(** [get_nutrition] (lines 66-93) *)
Definition get_nutrition (cfg : config) (svc : services)
    (product_name : string) (grams : float) : option nutrition :=
  let params : gmap string string :=
    <["app_id" := EDAMAM_APP_ID cfg]>
      (<["app_key" := EDAMAM_APP_KEY cfg]>
        (<["ingr" := str_of_float grams +:+ "g " +:+ product_name]> ∅)) in
  match requests_get svc params with
  | Json data =>
      match data_totalNutrients data with
      | Some nutrients =>
          if decide (nutrients = ∅) then None
          else
            Some {| kalorii := default 0%float (data_calories data);
                    belki := default 0%float (default ∅ (nutrients !! "PROCNT") !! "quantity");
                    zhiry := default 0%float (default ∅ (nutrients !! "FAT") !! "quantity");
                    uglevody := default 0%float (default ∅ (nutrients !! "CHOCDF") !! "quantity") |}
      | None => None
      end
  | RequestException => None
  | OtherException => None
  end.

(** [start] (lines 95-114) *)
Definition start (db : database) (upd : update) : database * message :=
  (register_user db (effective_user upd) (effective_chat upd), plain WELCOME).

(** [help_command] (lines 116-127) *)
Definition help_command (upd : update) : message := markdown HELP_TEXT.

(** [unknown] (lines 239-242) *)
Definition unknown (upd : update) : message := plain UNKNOWN_COMMAND.

(** The reply of [add_product] after the insert (lines 197-201). *)
Definition added_text (product_russian : string) (grams : float) (n : nutrition) : string :=
  "Добавлено: " +:+ product_russian +:+ " - " +:+ str_of_float grams +:+ " г" +:+ nl +:+
  "Калории: " +:+ format_2f (kalorii n) +:+ " ккал" +:+ nl +:+
  "Белки: " +:+ format_2f (belki n) +:+ " г, Жиры: " +:+ format_2f (zhiry n) +:+
  " г, Углеводы: " +:+ format_2f (uglevody n) +:+ " г".

(** [add_product] (lines 129-201); [date_str] is what
    [datetime.now().strftime("%Y-%m-%d")] gives during the call. *)
Definition add_product (cfg : config) (svc : services) (date_str : string)
    (db : database) (upd : update) : database * message :=
  let user_input := str_strip (str_lower (message_text upd)) in
  if String.eqb user_input "" then (db, plain ASK_INPUT)
  else
    let parts := str_split user_input in
    if (length parts <? 2)%nat then (db, plain ASK_TWO_PARTS)
    else
      match py_float (last_part parts) with
      | None => (db, plain ASK_NUMBER)
      | Some grams =>
          if (grams <=? 0)%float || (5000 <? grams)%float
          then (db, plain ASK_RANGE)
          else
            let product_russian := join " " (but_last parts) in
            match translate svc product_russian with
            | TranslateRaises => (db, plain TRANSLATION_ERROR)
            | Translated product_english =>
                if negb (truthy product_english)
                then (db, plain TRANSLATION_EMPTY)
                else
                  match get_nutrition cfg svc (default "" product_english) grams with
                  | None => (db, plain LOOKUP_FAILED)
                  | Some n =>
                      (append_entry db (effective_user upd) (effective_chat upd)
                         date_str product_russian grams n,
                       plain (added_text product_russian grams n))
                  end
            end
      end.

(** The four running sums of a report. *)
Record totals := {
  total_calories : float;
  total_proteins : float;
  total_fats : float;
  total_carbs : float;
}.

(** [total_calories = total_proteins = total_fats = total_carbs = 0] *)
Definition zero_totals : totals :=
  {| total_calories := 0; total_proteins := 0; total_fats := 0; total_carbs := 0 |}.

(** The line a report shows for one row (lines 223-227 and 266-270). *)
Definition entry_line (r : row) : string :=
  let '(product, amount, calories, proteins, fats, carbs) := r in
  "- " +:+ str_capitalize product +:+ ": " +:+ str_of_float amount +:+ " г" +:+ nl +:+
  "  Калории: " +:+ format_2f calories +:+ " ккал, " +:+
  "Б: " +:+ format_2f proteins +:+ " г, Ж: " +:+ format_2f fats +:+
  " г, У: " +:+ format_2f carbs +:+ " г" +:+ nl.

(** One turn of the loop over the rows (lines 218-227, and again lines
    261-270): the sums grow and the row's line is appended. *)
Definition report_step (st : totals * list string) (r : row) : totals * list string :=
  let '(t, report_lines) := st in
  let '(product, amount, calories, proteins, fats, carbs) := r in
  ({| total_calories := total_calories t + calories;
      total_proteins := total_proteins t + proteins;
      total_fats := total_fats t + fats;
      total_carbs := total_carbs t + carbs |},
   report_lines ++ [entry_line r]).

(** The closing block of a report (lines 229-235 and 272-278). *)
Definition totals_block (t : totals) : string :=
  nl +:+ "*Итого за день:*" +:+ nl +:+
  "Калории: " +:+ format_2f (total_calories t) +:+ " ккал" +:+ nl +:+
  "Белки: " +:+ format_2f (total_proteins t) +:+ " г" +:+ nl +:+
  "Жиры: " +:+ format_2f (total_fats t) +:+ " г" +:+ nl +:+
  "Углеводы: " +:+ format_2f (total_carbs t) +:+ " г".

(** The loop over the rows (lines 216-227 and 259-270), started with the
    sums at 0 and the title line in [report_lines]. *)
Definition report_loop (title_line : string) (rows : list row) : totals * list string :=
  foldl report_step (zero_totals, [title_line]) rows.

(** Lines 216-236, and lines 259-279 with the other title: the text of a
    report over [rows]. *)
Definition report_text (title : string) (date_str : string) (rows : list row) : string :=
  let '(t, report_lines) := report_loop (title +:+ date_str +:+ ":*" +:+ nl) rows in
  join "" (report_lines ++ [totals_block t]).

Definition REPORT_TITLE : string := "📊 *Отчет за ".
Definition DAILY_TITLE : string := "📊 *Автоматический отчет за ".

(** [report] (lines 203-237): the reply; the handler writes nothing. *)
Definition report (date_str : string) (db : database) (upd : update) : message :=
  let rows := select_entries db (effective_user upd) date_str in
  match rows with
  | [] => plain NOTHING_TODAY
  | _ :: _ => markdown (report_text REPORT_TITLE date_str rows)
  end.

(** ** The daily job *)

(** What [await application.bot.send_message(...)] does. *)
Inductive delivery :=
| Delivered
| DeliveryError.

(** A broadcast cycle: the messages delivered, in order, each with its
    [chat_id], and whether the job ended by an exception of the notifier. *)
Record cycle := {
  sent : list (Z * message);
  raised : bool;
}.

Definition delivered_then (post : Z * message) (c : cycle) : cycle :=
  {| sent := post :: sent c; raised := raised c |}.

Definition aborted : cycle := {| sent := []; raised := true |}.

(** The loop of [scheduled_daily_report] (lines 249-281) over the users
    fetched before it.  Nothing catches the exception of [send_message]: it
    leaves the loop and the job.  The ledger is read as it is when the job
    runs; handlers that would run while the job awaits a delivery are not
    interleaved. *)
Fixpoint broadcast (send_message : Z → message → delivery) (date_str : string)
    (db : database) (users : list (Z * Z)) : cycle :=
  match users with
  | [] => {| sent := []; raised := false |}
  | (chat_id, user_id) :: rest =>
      let rows := select_entries db user_id date_str in
      match rows with
      | [] =>
          let msg := plain NOTHING_TODAY in
          match send_message chat_id msg with
          | Delivered =>
              delivered_then (chat_id, msg) (broadcast send_message date_str db rest)
          | DeliveryError => aborted
          end
      | _ :: _ =>
          let msg := markdown (report_text DAILY_TITLE date_str rows) in
          match send_message chat_id msg with
          | Delivered =>
              delivered_then (chat_id, msg) (broadcast send_message date_str db rest)
          | DeliveryError => aborted
          end
      end
  end.

(** [scheduled_daily_report] (lines 244-281) *)
Definition scheduled_daily_report (send_message : Z → message → delivery)
    (date_str : string) (db : database) : cycle :=
  broadcast send_message date_str db (select_all_users db).

(** ** Runs of the bot *)

(** What [main] (lines 283-307) dispatches: a command or text update to its
    handler, or the daily job. *)
Inductive event :=
| OnStart (upd : update)
| OnHelp (upd : update)
| OnReport (date_str : string) (upd : update)
| OnText (svc : services) (date_str : string) (upd : update)
| OnUnknown (upd : update)
| OnDailyJob (send_message : Z → message → delivery) (date_str : string).

(** The database after one event. *)
Definition handle (cfg : config) (db : database) (ev : event) : database :=
  match ev with
  | OnStart upd => fst (start db upd)
  | OnText svc date_str upd => fst (add_product cfg svc date_str db upd)
  | OnHelp _ | OnReport _ _ | OnUnknown _ | OnDailyJob _ _ => db
  end.

Definition run (cfg : config) (db : database) (evs : list event) : database :=
  foldl (handle cfg) db evs.

End Bot.

(** ** Vocabulary of the properties *)

(** The two writes of the ledger. *)
Inductive ledger_op :=
| RegisterUser (uid cid : Z)
| AppendEntry (uid cid : Z) (date_str : string) (name : string) (grams : float)
    (n : nutrition).

Definition apply_op (db : database) (op : ledger_op) : database :=
  match op with
  | RegisterUser uid cid => register_user db uid cid
  | AppendEntry uid cid date_str name grams n =>
      append_entry db uid cid date_str name grams n
  end.

Definition apply_ops (db : database) (ops : list ledger_op) : database :=
  foldl apply_op db ops.

(** The rows a list of writes appends for one user and date, in order. *)
Definition appended (uid : Z) (date_str : string) (ops : list ledger_op) : list row :=
  ops ≫= λ op,
    match op with
    | AppendEntry u _ d name grams n =>
        if decide (u = uid ∧ d = date_str)
        then [(name, grams, kalorii n, belki n, zhiry n, uglevody n)]
        else []
    | RegisterUser _ _ => []
    end.

(** The nutrient values a list of writes passes to its appends for one user
    and date, in order. *)
Definition passed (uid : Z) (date_str : string) (ops : list ledger_op) : list nutrition :=
  ops ≫= λ op,
    match op with
    | AppendEntry u _ d _ _ n => if decide (u = uid ∧ d = date_str) then [n] else []
    | RegisterUser _ _ => []
    end.

(** Left-to-right sum of floats from 0, as [total += x] computes it. *)
Definition fsum (l : list float) : float := foldl PrimFloat.add 0%float l.

(** The rows of [users] with a given [user_id]. *)
Definition user_rows (db : database) (uid : Z) : list user :=
  filter (λ u, user_id u = uid) (users db).

(** The PRIMARY KEY of [users]. *)
Definition users_unique (db : database) : Prop := NoDup (user_id <$> users db).

(** The PRIMARY KEY of [entries] under AUTOINCREMENT: the [entry_id]s are
    distinct and none is above the counter. *)
Definition entry_ids_fresh (db : database) : Prop :=
  NoDup (entry_id <$> entries db)
  ∧ Forall (λ e, (entry_id e ≤ entries_seq db)%Z) (entries db).

(** The FOREIGN KEY of [entries]: the user of every entry has a row. *)
Definition entries_reference_users (db : database) : Prop :=
  Forall (λ e, is_Some (select_user db (entry_user_id e))) (entries db).

(** The left-to-right sums of the four nutrient columns of [rows]. *)
Definition column_sums (rows : list row) : totals :=
  {| total_calories := fsum ((λ r : row, r.1.1.1.2) <$> rows);
     total_proteins := fsum ((λ r : row, r.1.1.2) <$> rows);
     total_fats := fsum ((λ r : row, r.1.2) <$> rows);
     total_carbs := fsum ((λ r : row, r.2) <$> rows) |}.

(** Whether a float is the negative zero. *)
Definition is_minus_zero (x : float) : bool :=
  match Prim2SF x with
  | S754_zero s => s
  | _ => false
  end.

(** The replies of [add_product] when it writes nothing. *)
Definition CORRECTIVE : list string :=
  [ASK_INPUT; ASK_TWO_PARTS; ASK_NUMBER; ASK_RANGE;
   TRANSLATION_ERROR; TRANSLATION_EMPTY; LOOKUP_FAILED].

Section Vocabulary.
Context `{PyRuntime}.

(** What a submission of [product_russian] and [grams] gets from the two
    services: the translation, then the nutrient data. *)
Definition lookup (cfg : config) (svc : services) (product_russian : string)
    (grams : float) : option nutrition :=
  match translate svc product_russian with
  | TranslateRaises => None
  | Translated product_english =>
      if truthy product_english
      then get_nutrition cfg svc (default "" product_english) grams
      else None
  end.

(** The name [add_product] derives from the text of a message. *)
Definition stored_name (message : string) : string :=
  join " " (but_last (str_split (str_strip (str_lower message)))).

(** The quantity and the nutrient values of a submission that passes every
    check of [add_product] and whose lookup succeeds. *)
Definition accepted (cfg : config) (svc : services) (upd : update) :
    option (float * nutrition) :=
  let user_input := str_strip (str_lower (message_text upd)) in
  let parts := str_split user_input in
  if String.eqb user_input "" || (length parts <? 2)%nat then None
  else
    match py_float (last_part parts) with
    | None => None
    | Some grams =>
        if (grams <=? 0)%float || (5000 <? grams)%float then None
        else pair grams <$> lookup cfg svc (join " " (but_last parts)) grams
    end.

(** The writes an event makes to the ledger. *)
Definition event_writes (cfg : config) (ev : event) : list ledger_op :=
  match ev with
  | OnStart upd => [RegisterUser (effective_user upd) (effective_chat upd)]
  | OnText svc date_str upd =>
      match accepted cfg svc upd with
      | Some (grams, n) =>
          [AppendEntry (effective_user upd) (effective_chat upd) date_str
             (stored_name (message_text upd)) grams n]
      | None => []
      end
  | OnHelp _ | OnReport _ _ | OnUnknown _ | OnDailyJob _ _ => []
  end.

Definition writes (cfg : config) (evs : list event) : list ledger_op :=
  evs ≫= event_writes cfg.

(** The name and the quantity of a submission that passes the checks
    [add_product] makes before it calls a service. *)
Definition checked (upd : update) : option (string * float) :=
  let user_input := str_strip (str_lower (message_text upd)) in
  let parts := str_split user_input in
  if String.eqb user_input "" || (length parts <? 2)%nat then None
  else
    match py_float (last_part parts) with
    | None => None
    | Some grams =>
        if (grams <=? 0)%float || (5000 <? grams)%float then None
        else Some (join " " (but_last parts), grams)
    end.

(** Whether an event is a text message of user [uid] on the date
    [date_str]. *)
Definition text_of (uid : Z) (date_str : string) (ev : event) : Prop :=
  match ev with
  | OnText _ d upd => effective_user upd = uid ∧ d = date_str
  | _ => False
  end.

(** The message the daily job composes for one user. *)
Definition daily_message (date_str : string) (db : database) (uid : Z) : message :=
  let rows := select_entries db uid date_str in
  match rows with
  | [] => plain NOTHING_TODAY
  | _ :: _ => markdown (report_text DAILY_TITLE date_str rows)
  end.

(** The send the daily job plans for one row of its snapshot. *)
Definition daily_post (date_str : string) (db : database) (u : Z * Z) : Z * message :=
  (u.1, daily_message date_str db u.2).

End Vocabulary.

(** Whether a float is a NaN. *)
Definition is_nan (x : float) : bool := negb (x =? x)%float.

(** What a REAL column of SQLite gives back for a float written to it: a NaN
    is kept as NULL and read as [None], the negative zero is kept as 0.0,
    every other float comes back as written. *)
Definition real_column (x : float) : option float :=
  if is_nan x then None
  else if is_minus_zero x then Some 0%float
  else Some x.

(** Whether a REAL column gives a float back as written. *)
Definition kept_as_written (x : float) : bool := negb (is_nan x) && negb (is_minus_zero x).

(** A row of the per-date query as the cursor returns it. *)
Definition fetched_row : Type :=
  string * option float * option float * option float * option float * option float.

(** The row the cursor returns for a row written as [r]. *)
Definition fetch (r : row) : fetched_row :=
  let '(product, amount, calories, proteins, fats, carbs) := r in
  (product, real_column amount, real_column calories, real_column proteins,
   real_column fats, real_column carbs).



(** The per-date query as the cursor returns it. *)
Definition fetchall (db : database) (uid : Z) (date_str : string) : list fetched_row :=
  fetch <$> select_entries db uid date_str.

(** ** A reference runtime

    An executable [PyRuntime], to run the bot on concrete updates.  Strings
    are decoded from UTF-8 to code points and back.  Letter case is
    implemented for ASCII and for the Cyrillic letters U+0400-U+045F (the
    alphabets the bot is used with); the other code points are left as they
    are.  White space
    is the set of [str.isspace].  [float] reads a decimal numeral
    ([digits], [digits.digits], an optional exponent, [inf], [infinity],
    [nan], an optional sign), correctly rounded; it does not read [_]
    between digits nor digits outside ASCII. *)
Module Reference.

(** *** UTF-8 *)

Fixpoint decode_from (acc : N) (need : nat) (s : string) : list N :=
  match s with
  | EmptyString => []
  | String a rest =>
      let b := Ascii.N_of_ascii a in
      match need with
      | O =>
          if (b <? 128)%N then b :: decode_from 0 0 rest
          else if (b <? 224)%N then decode_from (b - 192) 1 rest
          else if (b <? 240)%N then decode_from (b - 224) 2 rest
          else decode_from (b - 240) 3 rest
      | S O => (acc * 64 + (b - 128))%N :: decode_from 0 0 rest
      | S n => decode_from (acc * 64 + (b - 128)) n rest
      end
  end.

Definition decode (s : string) : list N := decode_from 0 0 s.

Definition byte (n : N) : string := String (Ascii.ascii_of_N n) EmptyString.

Definition encode_point (c : N) : string :=
  if (c <? 128)%N then byte c
  else if (c <? 2048)%N then byte (192 + c / 64) +:+ byte (128 + c mod 64)
  else if (c <? 65536)%N then
    byte (224 + c / 4096) +:+ byte (128 + (c / 64) mod 64) +:+ byte (128 + c mod 64)
  else
    byte (240 + c / 262144) +:+ byte (128 + (c / 4096) mod 64) +:+
    byte (128 + (c / 64) mod 64) +:+ byte (128 + c mod 64).

Definition encode (l : list N) : string := String.concat "" (encode_point <$> l).

(** *** Letter case and white space *)

Definition between (lo hi c : N) : bool := ((lo <=? c) && (c <=? hi))%N.

(** A-Z, and the capital letters U+0400-U+042F of the Cyrillic alphabet. *)
Definition lower_point (c : N) : N :=
  if between 65 90 c then (c + 32)%N
  else if between 1040 1071 c then (c + 32)%N
  else if between 1024 1039 c then (c + 80)%N
  else c.

Definition upper_point (c : N) : N :=
  if between 97 122 c then (c - 32)%N
  else if between 1072 1103 c then (c - 32)%N
  else if between 1104 1119 c then (c - 80)%N
  else c.

(** The code points [str.isspace] accepts. *)
Definition is_space (c : N) : bool :=
  between 9 13 c || between 28 32 c || (c =? 133)%N || (c =? 160)%N ||
  (c =? 5760)%N || between 8192 8202 c || between 8232 8233 c ||
  (c =? 8239)%N || (c =? 8287)%N || (c =? 12288)%N.

Fixpoint drop_spaces (l : list N) : list N :=
  match l with
  | c :: l' => if is_space c then drop_spaces l' else l
  | [] => []
  end.

Definition strip_points (l : list N) : list N :=
  rev (drop_spaces (rev (drop_spaces l))).

(** The words of [l], [cur] being the reversed word under way. *)
Fixpoint words (cur : list N) (l : list N) : list (list N) :=
  match l with
  | [] => match cur with [] => [] | _ :: _ => [rev cur] end
  | c :: l' =>
      if is_space c
      then match cur with [] => words [] l' | _ :: _ => rev cur :: words [] l' end
      else words (c :: cur) l'
  end.

Definition lower (s : string) : string := encode (lower_point <$> decode s).
Definition strip (s : string) : string := encode (strip_points (decode s)).
Definition split (s : string) : list string := encode <$> words [] (decode s).
Definition capitalize (s : string) : string :=
  match decode s with
  | [] => ""
  | c :: l => encode (upper_point c :: (lower_point <$> l))
  end.

(** *** Decimal numerals to binary64 *)

Definition digit_of (a : Ascii.ascii) : option Z :=
  let b := Z.of_N (Ascii.N_of_ascii a) in
  if (48 <=? b)%Z && (b <=? 57)%Z then Some (b - 48)%Z else None.

(** The leading digits of [s]: their value after [acc], how many they are,
    and the rest of [s]. *)
Fixpoint digits (acc : Z) (count : nat) (s : string) : Z * nat * string :=
  match s with
  | String a rest =>
      match digit_of a with
      | Some d => digits (acc * 10 + d) (S count) rest
      | None => (acc, count, s)
      end
  | EmptyString => (acc, count, s)
  end.

(** A leading sign: whether it is [-], and the rest. *)
Definition sign (s : string) : bool * string :=
  match s with
  | String "-"%char rest => (true, rest)
  | String "+"%char rest => (false, rest)
  | _ => (false, s)
  end.

(** The exponent part, empty or [e], an optional sign and digits. *)
Definition exponent (s : string) : option Z :=
  match s with
  | EmptyString => Some 0%Z
  | String "e"%char rest =>
      let '(neg, rest) := sign rest in
      match digits 0 0 rest with
      | (_, O, _) => None
      | (e, S _, EmptyString) => Some (if neg : bool then (- e)%Z else e)
      | (_, S _, String _ _) => None
      end
  | String _ _ => None
  end.

(** A numeral without sign as [(m, k)], standing for [m * 10^k]. *)
Definition numeral (s : string) : option (Z * Z) :=
  let '(int_part, n_int, rest) := digits 0 0 s in
  let '(m, n_frac, rest) :=
    match rest with
    | String "."%char rest' =>
        let '(m, n_frac, rest'') := digits int_part 0 rest' in (m, n_frac, rest'')
    | _ => (int_part, O, rest)
    end in
  match (n_int + n_frac)%nat with
  | O => None
  | S _ =>
      match exponent rest with
      | Some e => Some (m, (e - Z.of_nat n_frac)%Z)
      | None => None
      end
  end.

(** The binary64 number nearest to [m * 10^k] (ties to even), for [0 <= m]. *)
Definition nearest (neg : bool) (m k : Z) : spec_float :=
  match m with
  | Zpos p =>
      match k with
      | Zneg _ =>
          SFdiv prec emax (S754_finite neg p 0)
                (S754_finite false (Z.to_pos (10 ^ (- k))) 0)
      | _ => binary_normalize prec emax (if neg then - (m * 10 ^ k) else m * 10 ^ k) 0 false
      end
  | _ => S754_zero neg
  end.

Fixpoint ascii_lower (s : string) : string :=
  match s with
  | String a rest =>
      let b := N_of_ascii a in
      String (if between 65 90 b then ascii_of_N (b + 32) else a) (ascii_lower rest)
  | EmptyString => EmptyString
  end.

Definition float_of_string (s : string) : option float :=
  let '(neg, body) := sign (ascii_lower s) in
  if String.eqb body "nan" then Some nan
  else if String.eqb body "inf" || String.eqb body "infinity"
  then Some (if neg then neg_infinity else infinity)
  else
    match numeral body with
    | Some (m, k) => Some (SF2Prim (nearest neg m k))
    | None => None
    end.

(** *** binary64 to decimal *)

Definition decimal (n : Z) : string := NilZero.string_of_uint (N.to_uint (Z.to_N n)).

(** The integer nearest to [n / d] (ties to even), for [0 < d]. *)
Definition round_half_even (n d : Z) : Z :=
  let q := (n / d)%Z in
  match (2 * (n mod d) ?= d)%Z with
  | Lt => q
  | Gt => (q + 1)%Z
  | Eq => if Z.even q then q else (q + 1)%Z
  end.

(** [m * 2^e] as a fraction. *)
Definition fraction (m : positive) (e : Z) : Z * Z :=
  match e with
  | Zneg _ => (Zpos m, 2 ^ (- e))%Z
  | _ => (Zpos m * 2 ^ e, 1)%Z
  end.

(** [num / den * 10^k] as a fraction. *)
Definition scale10 (v : Z * Z) (k : Z) : Z * Z :=
  let '(num, den) := v in
  match k with
  | Zneg _ => (num, den * 10 ^ (- k))%Z
  | _ => (num * 10 ^ k, den)%Z
  end.

Definition two_digits (n : Z) : string :=
  if (n <? 10)%Z then "0" +:+ decimal n else decimal n.

(** [f"{x:.2f}"]: the exact value of [x] rounded to hundredths. *)
Definition fixed2 (x : float) : string :=
  match Prim2SF x with
  | S754_nan => "nan"
  | S754_infinity s => if s then "-inf" else "inf"
  | S754_zero s => if s then "-0.00" else "0.00"
  | S754_finite s m e =>
      let '(num, den) := fraction m e in
      let n := round_half_even (num * 100) den in
      (if s then "-" else "") +:+ decimal (n / 100) +:+ "." +:+ two_digits (n mod 100)
  end.

(** The [p] with [10^p <= v < 10^(p+1)], for a positive fraction [v]. *)
Definition magnitude (v : Z * Z) : Z :=
  let est := ((Z.log2 (fst v) - Z.log2 (snd v)) * 30103 / 100000)%Z in
  let fits p := let '(n, d) := scale10 v (- p) in (d <=? n)%Z in
  if fits (est + 2)%Z then (est + 2)%Z
  else if fits (est + 1)%Z then (est + 1)%Z
  else if fits est then est
  else if fits (est - 1)%Z then (est - 1)%Z
  else (est - 2)%Z.

(** Whether [float] reads [d * 10^k] back as [x]. *)
Definition reads_back (x : spec_float) (d k : Z) : bool := SFeqb (nearest false d k) x.

(** The shortest numeral that reads back as [x = m * 2^e], tried with
    [n], [n + 1], ... significant digits: its digits as an integer and its
    power of ten.  Of two numerals of the same length the one nearer to [x]
    is taken. *)
Fixpoint shortest (fuel : nat) (n : Z) (x : spec_float) (v : Z * Z) (p : Z) : Z * Z :=
  let k := (p + 1 - n)%Z in
  let '(num, den) := scale10 v (- k) in
  let lo := (num / den)%Z in
  let hi := (lo + 1)%Z in
  match fuel with
  | O => (lo, k)
  | S fuel' =>
      let lo_ok := reads_back x lo k in
      let hi_ok := reads_back x hi k in
      if lo_ok && hi_ok then (round_half_even num den, k)
      else if lo_ok then (lo, k)
      else if hi_ok then (hi, k)
      else shortest fuel' (n + 1)%Z x v p
  end.

(** [s] without its zeros at the end. *)
Definition strip_zeros (s : string) : string :=
  let fix go (r : string) : string :=
    match r with
    | String "0"%char r' => go r'
    | _ => r
    end in
  String.rev (go (String.rev s)).

Fixpoint zeros (n : nat) : string :=
  match n with
  | O => ""
  | S n' => "0" +:+ zeros n'
  end.

(** The text of the digits [ds] with the decimal point after [decpt] of
    them: plain between 1e-4 and 1e16, with an exponent outside. *)
Definition place_point (ds : string) (decpt : Z) : string :=
  let nd := Z.of_nat (String.length ds) in
  if (decpt <=? -4)%Z || (16 <? decpt)%Z then
    let e := (decpt - 1)%Z in
    String.substring 0 1 ds +:+
    (if (1 <? nd)%Z then "." +:+ String.substring 1 (String.length ds - 1) ds else "") +:+
    "e" +:+ (if (e <? 0)%Z then "-" else "+") +:+ two_digits (Z.abs e)
  else if (decpt <=? 0)%Z then "0." +:+ zeros (Z.to_nat (- decpt)) +:+ ds
  else if (nd <=? decpt)%Z then ds +:+ zeros (Z.to_nat (decpt - nd)) +:+ ".0"
  else
    String.substring 0 (Z.to_nat decpt) ds +:+ "." +:+
    String.substring (Z.to_nat decpt) (String.length ds - Z.to_nat decpt) ds.

(** [f"{x}"], that is [repr(x)]: the shortest numeral that reads back as
    [x]. *)
Definition repr (x : float) : string :=
  match Prim2SF x with
  | S754_nan => "nan"
  | S754_infinity s => if s then "-inf" else "inf"
  | S754_zero s => if s then "-0.0" else "0.0"
  | S754_finite s m e =>
      let v := fraction m e in
      let p := magnitude v in
      let '(d, k) := shortest 17 1 (S754_finite false m e) v p in
      let all := decimal d in
      (if s then "-" else "") +:+
      place_point (strip_zeros all) (Z.of_nat (String.length all) + k)
  end.

#[export] Instance runtime : PyRuntime := {
  str_lower := lower;
  str_strip := strip;
  str_split := split;
  str_capitalize := capitalize;
  py_float := float_of_string;
  str_of_float := repr;
  format_2f := fixed2;
}.

End Reference.

(** ** Scenarios

    Concrete services, updates and ledgers, to run the bot on with the
    reference runtime. *)
Module Scenario.
#[local] Existing Instance Reference.runtime.
#[local] Set Warnings "-inexact-float".
#[local] Open Scope Z_scope.

Definition cfg : config :=
  {| EDAMAM_APP_ID := "app-id"; EDAMAM_APP_KEY := "app-key"; BOT_TOKEN := "token" |}.

(** An environment without [BOT_TOKEN]. *)
Definition no_token : gmap string string :=
  <["EDAMAM_APP_ID" := "app-id"]> (<["EDAMAM_APP_KEY" := "app-key"]> ∅).

Definition today : string := "2024-05-01".

(** The Edamam answer of scenario A of the specification: 104 kcal, 0.5 g of protein,
    0.3 g of fat and 28 g of carbohydrates. *)
Definition apple_data : edamam_data :=
  {| data_calories := Some 104%float;
     data_totalNutrients :=
       Some (<["PROCNT" := {["quantity" := 0.5%float]}]>
              (<["FAT" := {["quantity" := 0.3%float]}]>
                (<["CHOCDF" := {["quantity" := 28%float]}]> ∅))) |}.

Definition apple : nutrition :=
  {| kalorii := 104; belki := 0.5; zhiry := 0.3; uglevody := 28 |}.

(** A translator that knows one word and leaves the others as they are. *)
Definition dictionary (s : string) : translation :=
  Translated (Some (if String.eqb s "яблоко" then "apple" else s)).

Definition online : services :=
  {| translate := dictionary; requests_get := λ _, Json apple_data |}.

Definition translator_down : services :=
  {| translate := λ _, TranslateRaises; requests_get := λ _, Json apple_data |}.

Definition edamam_down : services :=
  {| translate := dictionary; requests_get := λ _, RequestException |}.

(** User [uid] writes [t] in chat [cid]. *)
Definition says (uid cid : Z) (t : string) : update :=
  {| message_text := t; effective_user := uid; effective_chat := cid |}.

(** Three users, of which the first and the last have an entry today. *)
Definition three_users : database :=
  run cfg empty_database
    [OnText online today (says 1 10 "яблоко 200");
     OnStart (says 2 20 "/start");
     OnText online today (says 3 30 "яблоко 200")].

(** A notifier that cannot reach chat 20. *)
Definition chat_20_unreachable (chat : Z) (m : message) : delivery :=
  if decide (chat = 20) then DeliveryError else Delivered.

(** Writes of three users, those of user 3 being scenario C of the specification. *)
Definition interleaved : list ledger_op :=
  [AppendEntry 3 30 today "рис" 100
     {| kalorii := 100; belki := 2; zhiry := 0.5; uglevody := 22 |};
   RegisterUser 4 40;
   AppendEntry 4 40 today "яблоко" 200 apple;
   AppendEntry 3 30 "2024-04-30" "яблоко" 200 apple;
   AppendEntry 3 30 today "хлеб" 50
     {| kalorii := 150; belki := 4; zhiry := 1.5; uglevody := 25 |}].

End Scenario.

(** * Properties *)

(** ** The ledger *)

Lemma select_user_None db uid :
  select_user db uid = None ↔ uid ∉ user_id <$> users db.
Proof.
  unfold select_user. induction (users db) as [|u l IH]; simpl.
  - split; [intros _; apply not_elem_of_nil | done].
  - rewrite not_elem_of_cons.
    destruct (Z.eqb_spec (user_id u) uid) as [->|Hne].
    + split; [done | by intros [? _]].
    + rewrite IH. split; [by split | by intros [_ ?]].
Qed.

Lemma select_user_Some db uid u :
  select_user db uid = Some u → u ∈ users db ∧ user_id u = uid.
Proof.
  unfold select_user. intros Hf. apply find_some in Hf as [Hin Heq].
  apply Z.eqb_eq in Heq. split; [by apply list_elem_of_In | done].
Qed.

Lemma entries_register_user db uid cid :
  entries (register_user db uid cid) = entries db.
Proof. unfold register_user. by destruct (select_user db uid). Qed.

Lemma select_entries_register_user db uid cid u d :
  select_entries (register_user db uid cid) u d = select_entries db u d.
Proof. unfold select_entries. by rewrite entries_register_user. Qed.

(** The per-date query after an insert: the new row comes last, and only
    under its own user and date. *)
Lemma select_entries_insert_entry db uid date_str name grams n u d :
  select_entries (insert_entry db uid date_str name grams n) u d =
  select_entries db u d ++
    (if decide (uid = u ∧ date_str = d)
     then [(name, grams, kalorii n, belki n, zhiry n, uglevody n)] else []).
Proof.
  unfold select_entries, insert_entry; simpl.
  rewrite filter_app, fmap_app. f_equal.
  rewrite filter_cons, filter_nil; simpl.
  by repeat case_decide.
Qed.

Lemma appended_cons u d op ops :
  appended u d (op :: ops) = appended u d [op] ++ appended u d ops.
Proof. unfold appended. apply (bind_app _ [op] ops). Qed.

Lemma passed_cons u d op ops :
  passed u d (op :: ops) = passed u d [op] ++ passed u d ops.
Proof. unfold passed. apply (bind_app _ [op] ops). Qed.

Lemma select_entries_apply_op db op u d :
  select_entries (apply_op db op) u d = select_entries db u d ++ appended u d [op].
Proof.
  destruct op as [uid cid|uid cid date_str name grams n]; simpl.
  - by rewrite select_entries_register_user, app_nil_r.
  - unfold append_entry.
    rewrite select_entries_insert_entry, select_entries_register_user.
    by rewrite app_nil_r.
Qed.

(** After any writes, the per-date query returns what it returned before,
    followed by the rows appended for that user and date, in order. *)
Lemma select_entries_apply_ops ops db u d :
  select_entries (apply_ops db ops) u d = select_entries db u d ++ appended u d ops.
Proof.
  revert db. induction ops as [|op ops IH]; intros db.
  - by rewrite app_nil_r.
  - unfold apply_ops in *. simpl. rewrite IH, select_entries_apply_op.
    by rewrite <- app_assoc, <- appended_cons.
Qed.



(** *** Registration *)

Lemma user_rows_None db uid : select_user db uid = None → user_rows db uid = [].
Proof.
  intros Hnone. apply select_user_None in Hnone. unfold user_rows.
  induction (users db) as [|u l IH]; [done|].
  rewrite fmap_cons, not_elem_of_cons in Hnone. destruct Hnone as [Hne Hl].
  rewrite filter_cons. case_decide; [congruence | by apply IH].
Qed.

Lemma select_user_insert_user db uid cid :
  select_user db uid = None →
  select_user (insert_user db uid cid) uid = Some {| user_id := uid; chat_id := cid |}.
Proof.
  unfold select_user, insert_user; simpl.
  induction (users db) as [|u l IH]; simpl.
  - by rewrite Z.eqb_refl.
  - destruct (Z.eqb (user_id u) uid); [done | apply IH].
Qed.

Lemma select_user_register_user db uid cid :
  is_Some (select_user (register_user db uid cid) uid).
Proof.
  unfold register_user. destruct (select_user db uid) eqn:Hsel.
  - by rewrite Hsel.
  - by rewrite select_user_insert_user.
Qed.

(** A second registration changes nothing, whatever the address. *)
Lemma register_user_idempotent db uid cid cid' :
  register_user (register_user db uid cid) uid cid' = register_user db uid cid.
Proof.
  destruct (select_user_register_user db uid cid) as [u Hu].
  unfold register_user at 1. by rewrite Hu.
Qed.

Lemma user_rows_register_user_new db uid cid :
  select_user db uid = None →
  user_rows (register_user db uid cid) uid = [{| user_id := uid; chat_id := cid |}].
Proof.
  intros Hnone. unfold register_user. rewrite Hnone.
  unfold user_rows, insert_user; simpl. rewrite filter_app.
  fold (user_rows db uid). rewrite (user_rows_None _ _ Hnone).
  rewrite filter_cons, filter_nil. simpl. by case_decide.
Qed.

(** The check before the INSERT keeps the [user_id]s distinct: the PRIMARY
    KEY constraint never fires. *)
Lemma register_user_unique db uid cid :
  users_unique db → users_unique (register_user db uid cid).
Proof.
  unfold users_unique, register_user. intros Hnd.
  destruct (select_user db uid) eqn:Hsel; [done|].
  apply select_user_None in Hsel. unfold insert_user; simpl.
  rewrite fmap_app. apply NoDup_app. split_and!; [done| |].
  - intros x Hx Hx'. simpl in Hx'. apply list_elem_of_singleton in Hx'. by subst.
  - simpl. apply NoDup_singleton.
Qed.

Lemma apply_ops_unique ops db : users_unique db → users_unique (apply_ops db ops).
Proof.
  revert db. induction ops as [|op ops IH]; intros db Hu; [done|].
  unfold apply_ops in *. simpl. apply IH. destruct op; simpl.
  - by apply register_user_unique.
  - unfold append_entry, insert_entry, users_unique; simpl.
    by apply register_user_unique.
Qed.

Lemma find_app_Some {A} (f : A → bool) (l l' : list A) (x : A) :
  find f l = Some x → find f (l ++ l') = Some x.
Proof.
  induction l as [|a l IH]; simpl; [done|]. by destruct (f a).
Qed.

(** A registered user keeps its row, whatever is written later. *)
Lemma user_rows_apply_op db op uid u :
  select_user db uid = Some u →
  select_user (apply_op db op) uid = Some u
  ∧ user_rows (apply_op db op) uid = user_rows db uid.
Proof.
  intros Hsel.
  assert (∀ uid' cid', select_user (register_user db uid' cid') uid = Some u
                       ∧ user_rows (register_user db uid' cid') uid = user_rows db uid)
    as Hreg.
  { intros uid' cid'. unfold register_user.
    destruct (select_user db uid') eqn:Hsel'; [done|].
    assert (uid' ≠ uid) as Hne by (intros ->; congruence).
    unfold select_user, user_rows, insert_user in *; simpl. split.
    - by apply find_app_Some.
    - rewrite filter_app, filter_cons, filter_nil. simpl.
      case_decide; [done | by rewrite app_nil_r]. }
  destruct op as [uid' cid'|uid' cid' d name grams n]; simpl; [apply Hreg|].
  unfold append_entry, insert_entry, select_user, user_rows; simpl. apply Hreg.
Qed.

Lemma user_rows_apply_ops ops db uid u :
  select_user db uid = Some u →
  user_rows (apply_ops db ops) uid = user_rows db uid.
Proof.
  revert db. induction ops as [|op ops IH]; intros db Hsel; [done|].
  unfold apply_ops in *. simpl.
  destruct (user_rows_apply_op db op uid u Hsel) as [Hsel' <-]. by apply IH.
Qed.

Lemma apply_op_entry_ids_fresh db op : entry_ids_fresh db → entry_ids_fresh (apply_op db op).
Proof.
  unfold entry_ids_fresh. intros [Hnd Hle].
  destruct op as [uid cid|uid cid d name grams n]; simpl.
  - unfold register_user. by destruct (select_user db uid).
  - unfold append_entry, insert_entry; simpl.
    rewrite entries_register_user.
    assert (entries_seq (register_user db uid cid) = entries_seq db) as ->
      by (unfold register_user; by destruct (select_user db uid)).
    split.
    + rewrite fmap_app. apply NoDup_app. split_and!; [done| |apply NoDup_singleton].
      intros x Hx Hx'. apply list_elem_of_singleton in Hx'. subst x.
      apply list_elem_of_fmap in Hx as (e & He & Hin).
      rewrite Forall_forall in Hle. apply Hle in Hin. simpl in *. lia.
    + apply Forall_app. split.
      * eapply Forall_impl; [exact Hle|]. simpl. intros; lia.
      * apply Forall_singleton. simpl. lia.
Qed.

Lemma apply_ops_entry_ids_fresh ops db :
  entry_ids_fresh db → entry_ids_fresh (apply_ops db ops).
Proof.
  revert db. induction ops as [|op ops IH]; intros db Hf; [done|].
  unfold apply_ops in *. simpl. by apply IH, apply_op_entry_ids_fresh.
Qed.

(** *** What the REAL columns give back *)

Lemma real_column_kept (x : float) : kept_as_written x = true → real_column x = Some x.
Proof.
  unfold kept_as_written, real_column.
  by destruct (is_nan x), (is_minus_zero x).
Qed.



(** The negative zero does not pass [amount <= 0]. *)
Lemma minus_zero_leb_zero (x : float) : is_minus_zero x = true → (x <=? 0)%float = true.
Proof.
  unfold is_minus_zero. rewrite FloatAxioms.leb_spec.
  change (Prim2SF 0) with (S754_zero false).
  by destruct (Prim2SF x) as [[]| | |].
Qed.


Section Handlers.
Context `{PyRuntime}.

(** C4. Registration is idempotent: when a user is not yet known, two
    [/start] commands of that user, whatever the chat of the second one,
    leave exactly one row of [users] for it, with the chat of the first
    command. *)
Theorem registration_idempotent (db : database) (first second : update) :
  effective_user second = effective_user first →
  select_user db (effective_user first) = None →
  user_rows (fst (start (fst (start db first)) second)) (effective_user first) =
  [{| user_id := effective_user first; chat_id := effective_chat first |}].
Proof.
  intros Hsame Hnew. unfold start; simpl. rewrite Hsame.
  rewrite register_user_idempotent. by apply user_rows_register_user_new.
Qed.

(** [add_product] writes what [accepted] says: nothing, or the registration
    of the user and one entry under the derived name. *)
Lemma add_product_accepted cfg svc date_str db upd :
  fst (add_product cfg svc date_str db upd) =
  match accepted cfg svc upd with
  | Some (grams, n) =>
      append_entry db (effective_user upd) (effective_chat upd) date_str
        (stored_name (message_text upd)) grams n
  | None => db
  end.
Proof.
  unfold add_product, accepted, stored_name, lookup.
  destruct (String.eqb _ ""); [done|].
  destruct (length _ <? 2)%nat; [done|]. simpl.
  destruct (py_float _) as [grams|]; [|done].
  destruct (_ || _); [done|].
  destruct (translate svc _) as [|product_english]; [done|].
  destruct (truthy product_english); simpl; [|done].
  by destruct (get_nutrition _ _ _ _).
Qed.

(** Every event changes the ledger by its writes, and by nothing else. *)
Lemma handle_writes cfg db ev : handle cfg db ev = apply_ops db (event_writes cfg ev).
Proof.
  destruct ev as [upd|upd|d upd|svc d upd|upd|send d]; simpl; try done.
  rewrite add_product_accepted. by destruct (accepted cfg svc upd) as [[grams n]|].
Qed.

Lemma run_writes cfg evs db : run cfg db evs = apply_ops db (writes cfg evs).
Proof.
  revert db. induction evs as [|ev evs IH]; intros db; [done|].
  unfold run, writes in *. simpl. rewrite IH, handle_writes.
  unfold apply_ops. by rewrite foldl_app.
Qed.

(** X4. The row of a user is the one of its first registration for good:
    once [/start] has registered a user that had no row, whatever the bot
    handles afterwards (further [/start] commands or messages of that user
    from other chats included), [users] holds exactly one row for the user,
    with the chat of that first command; the daily job keeps writing
    there. *)
Theorem registration_survives cfg db first evs :
  select_user db (effective_user first) = None →
  user_rows (run cfg (fst (start db first)) evs) (effective_user first) =
  [{| user_id := effective_user first; chat_id := effective_chat first |}].
Proof.
  intros Hnew. rewrite run_writes. unfold start; simpl.
  erewrite user_rows_apply_ops.
  - by apply user_rows_register_user_new.
  - unfold register_user. rewrite Hnew. by apply select_user_insert_user.
Qed.

(** X1. The PRIMARY KEY of [users] holds throughout every run of the bot:
    when the [user_id]s of [users] are distinct, they are still distinct
    after any events, since [start] and [add_product] insert a user only
    after their [SELECT] found no row for it; the INSERT never meets a
    [user_id] that is already there. *)
Theorem run_unique cfg evs db : users_unique db → users_unique (run cfg db evs).
Proof. rewrite run_writes. apply apply_ops_unique. Qed.

(** X2. The PRIMARY KEY of [entries] holds throughout every run of the
    bot: when the [entry_id]s are distinct and none is above the
    AUTOINCREMENT counter, this is still so after any events; every insert
    of [add_product] gets an [entry_id] no stored entry has. *)
Theorem run_entry_ids_fresh cfg evs db : entry_ids_fresh db → entry_ids_fresh (run cfg db evs).
Proof. rewrite run_writes. apply apply_ops_entry_ids_fresh. Qed.


End Handlers.

(** *** The sums of a report *)

Section Sums.
Context `{PyRuntime}.

(** The sums the loop reaches are the left-to-right sums of the four
    nutrient columns, whatever lines it collects on the way. *)
Lemma report_step_totals (t : totals) (l : list string) (rows : list row) :
  fst (foldl report_step (t, l) rows) =
  {| total_calories := foldl PrimFloat.add (total_calories t) ((λ r : row, r.1.1.1.2) <$> rows);
     total_proteins := foldl PrimFloat.add (total_proteins t) ((λ r : row, r.1.1.2) <$> rows);
     total_fats := foldl PrimFloat.add (total_fats t) ((λ r : row, r.1.2) <$> rows);
     total_carbs := foldl PrimFloat.add (total_carbs t) ((λ r : row, r.2) <$> rows) |}.
Proof.
  revert t l. induction rows as [|r rows IH]; intros t l.
  - by destruct t.
  - destruct r as [[[[[product amount] calories] proteins] fats] carbs].
    simpl. by rewrite IH.
Qed.

Lemma appended_passed uid date_str ops :
  (λ r : row, r.1.1.1.2) <$> appended uid date_str ops = kalorii <$> passed uid date_str ops
  ∧ (λ r : row, r.1.1.2) <$> appended uid date_str ops = belki <$> passed uid date_str ops
  ∧ (λ r : row, r.1.2) <$> appended uid date_str ops = zhiry <$> passed uid date_str ops
  ∧ (λ r : row, r.2) <$> appended uid date_str ops = uglevody <$> passed uid date_str ops.
Proof.
  induction ops as [|op ops IH]; [done|].
  destruct IH as (IH1 & IH2 & IH3 & IH4).
  rewrite appended_cons, passed_cons, !fmap_app, IH1, IH2, IH3, IH4.
  destruct op; [done|]. unfold appended, passed; simpl. by case_decide.
Qed.

(** C2. For a user and date without entries so far, after any sequence of
    writes (appends of that user and date interleaved with registrations and
    with appends of other users and dates) the sums the report loop computes
    over the per-date query are, field by field, the sums of the nutrient
    values passed to the appends of that user and date; over no rows the sums
    are all zero. *)
Theorem report_totals_are_sums (db : database) (ops : list ledger_op) (uid : Z)
    (date_str title_line : string) :
  select_entries db uid date_str = [] →
  let values := passed uid date_str ops in
  fst (report_loop title_line (select_entries (apply_ops db ops) uid date_str)) =
  {| total_calories := fsum (kalorii <$> values);
     total_proteins := fsum (belki <$> values);
     total_fats := fsum (zhiry <$> values);
     total_carbs := fsum (uglevody <$> values) |}
  ∧ fst (report_loop title_line []) = zero_totals.
Proof.
  intros Hnone values. split; [|done].
  unfold report_loop. rewrite report_step_totals, select_entries_apply_ops, Hnone. simpl.
  destruct (appended_passed uid date_str ops) as (-> & -> & -> & ->).
  done.
Qed.

(** The same over the events the bot handles: the sums are those of the
    values its accepted submissions got from the lookup. *)
Lemma report_totals_of_run cfg db evs uid date_str title_line :
  select_entries db uid date_str = [] →
  fst (report_loop title_line (select_entries (run cfg db evs) uid date_str)) =
  {| total_calories := fsum (kalorii <$> passed uid date_str (writes cfg evs));
     total_proteins := fsum (belki <$> passed uid date_str (writes cfg evs));
     total_fats := fsum (zhiry <$> passed uid date_str (writes cfg evs));
     total_carbs := fsum (uglevody <$> passed uid date_str (writes cfg evs)) |}.
Proof.
  intros Hnone. unfold report_loop.
  rewrite run_writes, report_step_totals, select_entries_apply_ops, Hnone. simpl.
  by destruct (appended_passed uid date_str (writes cfg evs)) as (-> & -> & -> & ->).
Qed.

(** The totals block of a report shows the sums of the loop. *)
Lemma report_text_totals title date_str rows :
  ∃ report_lines,
    report_text title date_str rows =
    join "" (report_lines ++
             [totals_block (fst (report_loop (title +:+ date_str +:+ ":*" +:+ nl) rows))]).
Proof.
  unfold report_text. destruct (report_loop _ rows) as [t report_lines]. by exists report_lines.
Qed.

End Sums.

(** ** Submissions *)

(** Takes [add_product] past the checks of the text: [Hinput] says the
    stripped text is not empty, [Hparts] that it has two words at least. *)
Ltac pass_text_checks Hinput Hparts :=
  apply String.eqb_neq in Hinput; rewrite Hinput;
  match type of Hparts with
  | (2 ≤ length ?parts)%nat =>
      replace (length parts <? 2)%nat with false by (symmetry; apply Nat.ltb_ge; lia)
  end.

Section Submissions.
Context `{PyRuntime}.

(** [get_nutrition] always returns; it returns nothing exactly when the
    request raises or its answer has no nutrients. *)
Lemma get_nutrition_None cfg svc name grams :
  get_nutrition cfg svc name grams = None ↔
  ∀ data, requests_get svc
            (<["app_id" := EDAMAM_APP_ID cfg]>
              (<["app_key" := EDAMAM_APP_KEY cfg]>
                (<["ingr" := str_of_float grams +:+ "g " +:+ name]> ∅))) = Json data →
          data_totalNutrients data = None ∨ data_totalNutrients data = Some ∅.
Proof.
  unfold get_nutrition. destruct (requests_get svc _) as [| |data].
  - split; [discriminate | done].
  - split; [discriminate | done].
  - destruct (data_totalNutrients data) as [nutrients|] eqn:Hn.
    + case_decide as Hempty.
      * subst. split; [intros _ d [= <-]; rewrite Hn; by right | done].
      * split; [discriminate|]. intros Hd.
        destruct (Hd data eq_refl) as [Hd'|Hd']; rewrite Hn in Hd'; congruence.
    + split; [intros _ d [= <-]; by left | done].
Qed.

(** C7. A failed lookup leaves the ledger unchanged: when a submission
    passes the checks of its text and quantity and the translation raises,
    gives nothing, or the nutrient lookup returns nothing, [add_product]
    returns the database it was given and replies with the corrective
    message of the step that failed. *)
Theorem lookup_failure_keeps_ledger (cfg : config) (svc : services) (date_str : string)
    (db : database) (upd : update) (grams : float) :
  let user_input := str_strip (str_lower (message_text upd)) in
  let parts := str_split user_input in
  user_input ≠ "" →
  (2 ≤ length parts)%nat →
  py_float (last_part parts) = Some grams →
  (grams <=? 0)%float = false →
  (5000 <? grams)%float = false →
  lookup cfg svc (join " " (but_last parts)) grams = None →
  fst (add_product cfg svc date_str db upd) = db
  ∧ snd (add_product cfg svc date_str db upd) ∈
      [plain TRANSLATION_ERROR; plain TRANSLATION_EMPTY; plain LOOKUP_FAILED].
Proof.
  intros user_input parts Hinput Hparts Hfloat Hle Hgt Hlookup.
  unfold add_product. fold user_input. fold parts.
  pass_text_checks Hinput Hparts.
  rewrite Hfloat, Hle, Hgt. simpl.
  unfold lookup in Hlookup.
  destruct (translate svc _) as [|product_english].
  - split; [done | set_solver].
  - destruct (truthy product_english); simpl.
    + rewrite Hlookup. split; [done | set_solver].
    + split; [done | set_solver].
Qed.

(** A submission that passes the checks and whose lookup succeeds is
    inserted. *)
Lemma add_product_inserts cfg svc date_str db upd grams n :
  let user_input := str_strip (str_lower (message_text upd)) in
  let parts := str_split user_input in
  user_input ≠ "" →
  (2 ≤ length parts)%nat →
  py_float (last_part parts) = Some grams →
  (grams <=? 0)%float || (5000 <? grams)%float = false →
  lookup cfg svc (stored_name (message_text upd)) grams = Some n →
  add_product cfg svc date_str db upd =
  (append_entry db (effective_user upd) (effective_chat upd) date_str
     (stored_name (message_text upd)) grams n,
   plain (added_text (stored_name (message_text upd)) grams n)).
Proof.
  intros user_input parts Hinput Hparts Hfloat Hrange Hlookup.
  unfold add_product, stored_name in *. fold user_input in Hlookup |- *. fold parts in Hlookup |- *.
  pass_text_checks Hinput Hparts.
  rewrite Hfloat, Hrange. unfold lookup in Hlookup.
  destruct (translate svc _) as [|product_english]; [done|].
  destruct (truthy product_english); simpl; [by rewrite Hlookup | done].
Qed.

(** A last word that is not a numeral, or a quantity the range check
    refuses, is answered by a corrective message and nothing is written. *)
Lemma add_product_rejects_quantity cfg svc date_str db upd :
  let user_input := str_strip (str_lower (message_text upd)) in
  let parts := str_split user_input in
  user_input ≠ "" →
  (2 ≤ length parts)%nat →
  match py_float (last_part parts) with
  | None => True
  | Some grams => (grams <=? 0)%float = true ∨ (5000 <? grams)%float = true
  end →
  add_product cfg svc date_str db upd =
  (db, plain (match py_float (last_part parts) with
              | Some _ => ASK_RANGE
              | None => ASK_NUMBER
              end)).
Proof.
  intros user_input parts Hinput Hparts Hbad.
  unfold add_product. fold user_input. fold parts.
  pass_text_checks Hinput Hparts.
  destruct (py_float (last_part parts)) as [grams|]; [|done].
  by destruct Hbad as [-> | ->]; rewrite ?orb_true_r.
Qed.

(** An entry is inserted only after both lookups succeeded. *)
Lemma add_product_inserts_after_lookup cfg svc date_str db upd :
  entries (fst (add_product cfg svc date_str db upd)) ≠ entries db →
  ∃ grams n,
    py_float (last_part (str_split (str_strip (str_lower (message_text upd))))) = Some grams
    ∧ lookup cfg svc (stored_name (message_text upd)) grams = Some n
    ∧ fst (add_product cfg svc date_str db upd) =
      append_entry db (effective_user upd) (effective_chat upd) date_str
        (stored_name (message_text upd)) grams n.
Proof.
  unfold add_product, stored_name, lookup. intros Hchanged.
  repeat (case_match; simpl in *; try done).
  eexists _, _. split_and!; done.
Qed.

(** C3, as the code has it. The ledger stores the product name in lower
    case with its words joined by single spaces: whenever [add_product]
    inserts, the entry it appends has as [product] the words of the
    lower-cased, stripped message without the last one, joined by one space.
    The capital first letter is applied when a report line is built, not in
    what is stored. *)
Theorem stored_name_is_normalised (cfg : config) (svc : services) (date_str : string)
    (db : database) (upd : update) :
  entries (fst (add_product cfg svc date_str db upd)) ≠ entries db →
  ∃ e tail,
    entries (fst (add_product cfg svc date_str db upd)) = entries db ++ [e]
    ∧ product e = stored_name (message_text upd)
    ∧ entry_line (row_of_entry e) = "- " +:+ str_capitalize (product e) +:+ tail.
Proof.
  intros Hchanged.
  destruct (add_product_inserts_after_lookup _ _ _ _ _ Hchanged) as (grams & n & _ & _ & ->).
  unfold append_entry, insert_entry; simpl. rewrite entries_register_user.
  eexists _, _. split_and!; [done | done |]. simpl. done.
Qed.

End Submissions.

(** *** The range check of the quantity *)

Lemma SFcompare_swap x y : SFcompare y x = CompOpp <$> SFcompare x y.
Proof.
  destruct x as [sx|sx| |sx mx ex], y as [sy|sy| |sy my ey]; simpl; try done;
    try (by destruct sx); try (by destruct sy); try (by destruct sx, sy).
  assert (Pos.compare_cont Eq my mx = CompOpp (Pos.compare_cont Eq mx my)) as Hm
    by (symmetry; apply (Pos.compare_cont_antisym mx my Eq)).
  destruct sx, sy; simpl; try done;
    rewrite (Z.compare_antisym ey ex); destruct (ey ?= ex)%Z; simpl; try done;
    by rewrite Hm.
Qed.

(** X9. The range check of [add_product], [amount <= 0 or amount > 5000]
    on binary64 floats, lets through exactly the quantities with
    0 < amount <= 5000 and NaN, for which both comparisons are false; the
    infinities and both zeros are refused. *)
Theorem range_check_passes (grams : float) :
  (grams <=? 0)%float || (5000 <? grams)%float = false ↔
  is_nan grams = true ∨ ((0 <? grams)%float = true ∧ (grams <=? 5000)%float = true).
Proof.
  unfold is_nan.
  rewrite !FloatAxioms.leb_spec, !FloatAxioms.ltb_spec, FloatAxioms.eqb_spec.
  change (Prim2SF 0) with (S754_zero false).
  unfold SFleb, SFltb, SFeqb.
  rewrite (SFcompare_swap (Prim2SF 5000) (Prim2SF grams)).
  destruct (Prim2SF grams) as [s|s| |s m e] eqn:Hg.
  - simpl. split; [done | intros [?|[? _]]; done].
  - destruct s; simpl; (split; [done | intros [?|[? ?]]; done]).
  - simpl. split; [by left | done].
  - change (SFcompare (S754_finite s m e) (S754_zero false))
      with (Some (if s then Lt else Gt)).
    change (SFcompare (S754_zero false) (S754_finite s m e))
      with (Some (if s then Gt else Lt)).
    assert (SFcompare (S754_finite s m e) (S754_finite s m e) = Some Eq) as ->.
    { simpl. destruct s; rewrite Z.compare_refl, Pos.compare_cont_refl; done. }
    destruct (SFcompare (Prim2SF 5000) (S754_finite s m e)) as [[]|] eqn:Hc;
      destruct s; simpl; try (split; [done | intros [?|[? ?]]; done]);
      try (split; [intros _; by right | done]).
Qed.

(** ** Reports *)

Section Reports.
Context `{PyRuntime}.

(** One turn of the daily loop, by the message it composes. *)
Lemma broadcast_cons send date_str db chat uid rest :
  broadcast send date_str db ((chat, uid) :: rest) =
  match send chat (daily_message date_str db uid) with
  | Delivered =>
      delivered_then (chat, daily_message date_str db uid)
        (broadcast send date_str db rest)
  | DeliveryError => aborted
  end.
Proof.
  cbn [broadcast]. unfold daily_message.
  by destruct (select_entries db uid date_str).
Qed.

(** What a cycle has sent is a prefix of what it planned. *)
Lemma broadcast_sent_prefix send date_str db us :
  sent (broadcast send date_str db us) `prefix_of` (daily_post date_str db <$> us).
Proof.
  induction us as [|[chat uid] us IH]; [done|].
  rewrite broadcast_cons, fmap_cons.
  destruct (send chat _); simpl.
  - by apply prefix_cons.
  - apply prefix_nil.
Qed.

(** C6. When a user has no entries for the date, [report] replies with the
    fixed text "Вы ничего не записали сегодня." as a plain message, which is
    not the text a report over no rows would be, and every message the daily
    job sends to that user is this fixed message. *)
Theorem empty_day_message (date_str : string) (db : database) (upd : update) :
  select_entries db (effective_user upd) date_str = [] →
  report date_str db upd = plain NOTHING_TODAY
  ∧ text (report date_str db upd) ≠ report_text REPORT_TITLE date_str []
  ∧ ∀ send (i : nat) chat post,
      select_all_users db !! i = Some (chat, effective_user upd) →
      sent (scheduled_daily_report send date_str db) !! i = Some post →
      post = (chat, plain NOTHING_TODAY).
Proof.
  intros Hnone. split_and!.
  - unfold report. by rewrite Hnone.
  - unfold report. rewrite Hnone. discriminate.
  - intros send i chat post Hi Hsent.
    pose proof (broadcast_sent_prefix send date_str db (select_all_users db)) as Hpre.
    eapply prefix_lookup_Some in Hsent; [|exact Hpre].
    rewrite list_lookup_fmap, Hi in Hsent. simpl in Hsent.
    injection Hsent as <-. unfold daily_post, daily_message; simpl. by rewrite Hnone.
Qed.

(** C8. Report rendering is determined by the date and the rows: two
    requests, by whatever users and over whatever ledgers, whose per-date
    queries return the same rows get the same message, byte for byte, from
    [report], and the same message from the daily job. *)
Theorem report_determined_by_rows (date_str : string) (db1 db2 : database)
    (upd1 upd2 : update) :
  select_entries db1 (effective_user upd1) date_str =
  select_entries db2 (effective_user upd2) date_str →
  report date_str db1 upd1 = report date_str db2 upd2
  ∧ daily_message date_str db1 (effective_user upd1) =
    daily_message date_str db2 (effective_user upd2).
Proof.
  intros Hrows. unfold report, daily_message. by rewrite Hrows.
Qed.

(** The same for a whole cycle: it depends on the ledger through the rows
    of the users it visits only. *)
Lemma broadcast_determined_by_rows send date_str db1 db2 us :
  Forall (λ u : Z * Z, select_entries db1 u.2 date_str = select_entries db2 u.2 date_str) us →
  broadcast send date_str db1 us = broadcast send date_str db2 us.
Proof.
  induction 1 as [|[chat uid] us Hu _ IH]; [done|].
  rewrite !broadcast_cons. unfold daily_message. simpl in Hu. by rewrite Hu, IH.
Qed.

(** ** The broadcast cycle *)

(** A cycle in which every delivery succeeds sends every planned message. *)
Lemma broadcast_all_delivered send date_str db us :
  Forall (λ u : Z * Z, send u.1 (daily_message date_str db u.2) = Delivered) us →
  broadcast send date_str db us =
  {| sent := daily_post date_str db <$> us; raised := false |}.
Proof.
  induction 1 as [|[chat uid] us Hu _ IH]; [done|].
  rewrite broadcast_cons. simpl in Hu. by rewrite Hu, IH.
Qed.

Lemma broadcast_stops send date_str db before failing after :
  Forall (λ u : Z * Z, send u.1 (daily_message date_str db u.2) = Delivered) before →
  send failing.1 (daily_message date_str db failing.2) = DeliveryError →
  broadcast send date_str db (before ++ failing :: after) =
  {| sent := daily_post date_str db <$> before; raised := true |}.
Proof.
  intros Hbefore Hfail. induction Hbefore as [|[chat uid] us Hu _ IH]; simpl app.
  - destruct failing as [chat uid]. rewrite broadcast_cons. simpl in Hfail. by rewrite Hfail.
  - rewrite broadcast_cons. simpl in Hu. by rewrite Hu, IH.
Qed.

(** C1, as the code has it. A delivery failure ends the broadcast cycle:
    when the send to some user of the snapshot raises and the sends to the
    users before it were delivered, the job ends by that exception having
    sent exactly the messages of the users before the failing one; no user
    after it in the snapshot is sent anything in that cycle. *)
Theorem delivery_failure_ends_cycle (send : Z → message → delivery) (date_str : string)
    (db : database) (before after : list (Z * Z)) (failing : Z * Z) :
  select_all_users db = before ++ failing :: after →
  Forall (λ u : Z * Z, send u.1 (daily_message date_str db u.2) = Delivered) before →
  send failing.1 (daily_message date_str db failing.2) = DeliveryError →
  scheduled_daily_report send date_str db =
  {| sent := daily_post date_str db <$> before; raised := true |}.
Proof.
  intros Husers Hbefore Hfail. unfold scheduled_daily_report. rewrite Husers.
  by apply broadcast_stops.
Qed.

End Reports.

(** ** Configuration *)

Lemma truthy_getenv_None environ name :
  environ !! name = None → truthy (getenv environ name) = false.
Proof. unfold getenv. by intros ->. Qed.

(** C9. The three configuration values are checked when the module is
    loaded: when any of [EDAMAM_APP_ID], [EDAMAM_APP_KEY] or [BOT_TOKEN] is
    absent from the environment, the check raises [ValueError] and the
    process stops without serving. *)
Theorem missing_configuration_is_fatal (environ : gmap string string) (name : string)
    (file : option database) :
  name ∈ ["EDAMAM_APP_ID"; "EDAMAM_APP_KEY"; "BOT_TOKEN"] →
  environ !! name = None →
  load_config environ = Raised (ValueError CONFIG_ERROR)
  ∧ boot environ file = Stopped (ValueError CONFIG_ERROR).
Proof.
  intros Hname Hmissing.
  assert (load_config environ = Raised (ValueError CONFIG_ERROR)) as Hload.
  { apply list_elem_of_In in Hname. simpl in Hname.
    unfold load_config. cbv zeta. cbn [forallb].
    destruct Hname as [<-|[<-|[<-|[]]]];
      rewrite (truthy_getenv_None _ _ Hmissing); simpl;
      repeat (destruct (truthy _); simpl); done. }
  split; [done|]. unfold boot. by rewrite Hload.
Qed.

Lemma truthy_true (v : option string) : truthy v = true ↔ ∃ s, v = Some s ∧ s ≠ "".
Proof.
  destruct v as [s|]; simpl.
  - rewrite negb_true_iff, String.eqb_neq. split; [eauto | by intros (? & [= <-] & ?)].
  - split; [done | by intros (? & ? & _)].
Qed.

(** X11. The process gets past the configuration check exactly when each
    of [EDAMAM_APP_ID], [EDAMAM_APP_KEY] and [BOT_TOKEN] is set to a string
    that is not empty: a variable set to the empty string stops the process
    like a missing one. *)
Theorem boot_serving environ file :
  (∃ cfg db, boot environ file = Serving cfg db) ↔
  Forall (λ name, ∃ s, environ !! name = Some s ∧ s ≠ "")
    ["EDAMAM_APP_ID"; "EDAMAM_APP_KEY"; "BOT_TOKEN"].
Proof.
  rewrite !Forall_cons, Forall_nil, <- !truthy_true.
  unfold boot, load_config, getenv. cbv zeta. cbn [forallb].
  destruct (truthy (environ !! "EDAMAM_APP_ID")),
           (truthy (environ !! "EDAMAM_APP_KEY")),
           (truthy (environ !! "BOT_TOKEN")); simpl;
    (split; [intros (? & ? & Hs); by try discriminate Hs | intros (? & ? & ? & _); by eauto]).
Qed.

(** ** Further properties of the ledger *)

Lemma select_user_apply_op db op uid :
  is_Some (select_user db uid) → is_Some (select_user (apply_op db op) uid).
Proof.
  intros [u Hu]. destruct (user_rows_apply_op db op uid u Hu) as [Hsel _]. by exists u.
Qed.

Lemma apply_op_references db op :
  entries_reference_users db → entries_reference_users (apply_op db op).
Proof.
  unfold entries_reference_users. intros Href.
  assert (Forall (λ e, is_Some (select_user (apply_op db op) (entry_user_id e))) (entries db))
    as Hold.
  { eapply Forall_impl; [exact Href|]. intros e. apply select_user_apply_op. }
  destruct op as [uid cid|uid cid d name grams n]; simpl in *.
  - by rewrite entries_register_user.
  - unfold append_entry, insert_entry in *; simpl in *.
    rewrite entries_register_user. apply Forall_app. split; [exact Hold|].
    apply Forall_singleton. simpl. apply select_user_register_user.
Qed.

Lemma apply_ops_references ops db :
  entries_reference_users db → entries_reference_users (apply_ops db ops).
Proof.
  revert db. induction ops as [|op ops IH]; intros db Href; [done|].
  unfold apply_ops in *. simpl. by apply IH, apply_op_references.
Qed.

Lemma appended_app u d ops1 ops2 :
  appended u d (ops1 ++ ops2) = appended u d ops1 ++ appended u d ops2.
Proof. unfold appended. apply bind_app. Qed.

Section Integrity.
Context `{PyRuntime}.

(** X3. The FOREIGN KEY of [entries] holds throughout every run of the
    bot: when the user of every stored entry has a row in [users], this is
    still so after any events, since [add_product] registers the user before
    it inserts the entry and no row of [users] is ever removed. *)
Theorem run_keeps_references cfg evs db :
  entries_reference_users db → entries_reference_users (run cfg db evs).
Proof. rewrite run_writes. apply apply_ops_references. Qed.

Lemma appended_writes_nil cfg evs uid date_str :
  Forall (λ ev, ¬ text_of uid date_str ev) evs →
  appended uid date_str (writes cfg evs) = [].
Proof.
  induction 1 as [|ev evs Hev _ IH]; [done|].
  change (writes cfg (ev :: evs)) with (event_writes cfg ev ++ writes cfg evs).
  rewrite appended_app, IH, app_nil_r.
  destruct ev as [upd|upd|d upd|svc d upd|upd|send d]; simpl; try done.
  destruct (accepted cfg svc upd) as [[grams n]|]; [|done].
  unfold appended; simpl. case_decide as Hc; [|done]. by destruct Hev.
Qed.

(** X13. What a user is shown for a date depends on that user's own text
    messages of that date only: after any events among which none is a text
    message of that user on that date (messages of other users or of other
    days, commands, daily jobs), [report] and the daily job compose the same
    message for the user as before. *)
Theorem report_unaffected_by_others cfg evs db date_str upd :
  Forall (λ ev, ¬ text_of (effective_user upd) date_str ev) evs →
  report date_str (run cfg db evs) upd = report date_str db upd
  ∧ daily_message date_str (run cfg db evs) (effective_user upd) =
    daily_message date_str db (effective_user upd).
Proof.
  intros Hevs. unfold report, daily_message.
  rewrite run_writes, select_entries_apply_ops, appended_writes_nil; [|done].
  by rewrite app_nil_r.
Qed.

End Integrity.

(** ** Further properties of submissions *)

Section Further_submissions.
Context `{PyRuntime}.

(** [add_product], by the outcome of its checks and of the lookup. *)
Lemma add_product_cases cfg svc date_str db upd :
  add_product cfg svc date_str db upd =
  match checked upd with
  | None =>
      let user_input := str_strip (str_lower (message_text upd)) in
      let parts := str_split user_input in
      (db, plain (if String.eqb user_input "" then ASK_INPUT
                  else if (length parts <? 2)%nat then ASK_TWO_PARTS
                  else match py_float (last_part parts) with
                       | None => ASK_NUMBER
                       | Some _ => ASK_RANGE
                       end))
  | Some (name, grams) =>
      match lookup cfg svc name grams with
      | Some n =>
          (append_entry db (effective_user upd) (effective_chat upd) date_str name grams n,
           plain (added_text name grams n))
      | None =>
          (db, plain (match translate svc name with
                      | TranslateRaises => TRANSLATION_ERROR
                      | Translated product_english =>
                          if truthy product_english then LOOKUP_FAILED
                          else TRANSLATION_EMPTY
                      end))
      end
  end.
Proof.
  unfold add_product, checked, lookup.
  destruct (String.eqb _ ""); [done|].
  destruct (length _ <? 2)%nat; [done|]. simpl.
  destruct (py_float _) as [grams|]; [|done].
  destruct (_ || _); [done|].
  destruct (translate svc _) as [|product_english]; [done|].
  destruct (truthy product_english); simpl; [|done].
  by destruct (get_nutrition _ _ _ _).
Qed.

(** X7. A message that fails the checks of its text or quantity is
    answered from the text alone: the reply is one of the four corrective
    messages of the checks, the same whatever the services, the date and the
    ledger are, and the ledger is returned unchanged; neither the translator
    nor Edamam has a say in it. *)
Theorem invalid_submission_is_answered_locally (upd : update) :
  checked upd = None →
  ∃ m, m ∈ [ASK_INPUT; ASK_TWO_PARTS; ASK_NUMBER; ASK_RANGE]
       ∧ ∀ cfg svc date_str db, add_product cfg svc date_str db upd = (db, plain m).
Proof.
  intros Hbad. eexists. split.
  2:{ intros cfg svc date_str db. rewrite add_product_cases, Hbad. reflexivity. }
  cbv zeta. repeat case_match; set_solver.
Qed.

(** The quantity [checked] lets through passed the range check. *)
Lemma checked_in_range upd name grams :
  checked upd = Some (name, grams) → (grams <=? 0)%float || (5000 <? grams)%float = false.
Proof.
  unfold checked. intros Hc. repeat case_match; simplify_eq. done.
Qed.

(** X6. A submission that passes the checks and whose lookup succeeds is
    recorded and can be read back: the per-date query of the user, as the
    cursor returns it, then ends with one new row holding the derived name,
    the quantity and the four nutrient values of the lookup, each float as
    its REAL column gives it back; a quantity that is a number comes back
    as written.  The user has a row in [users], every row [users] held is
    still there, and the reply is the confirmation. *)
Theorem accepted_submission_is_recorded cfg svc date_str db upd name grams n :
  checked upd = Some (name, grams) →
  lookup cfg svc name grams = Some n →
  let db' := fst (add_product cfg svc date_str db upd) in
  name = stored_name (message_text upd)
  ∧ fetchall db' (effective_user upd) date_str =
    fetchall db (effective_user upd) date_str ++
      [(name, real_column grams, real_column (kalorii n), real_column (belki n),
        real_column (zhiry n), real_column (uglevody n))]
  ∧ (is_nan grams = false → real_column grams = Some grams)
  ∧ is_Some (select_user db' (effective_user upd))
  ∧ (∀ u, u ∈ users db → u ∈ users db')
  ∧ snd (add_product cfg svc date_str db upd) = plain (added_text name grams n).
Proof.
  intros Hchecked Hlookup db'. subst db'.
  pose proof (checked_in_range _ _ _ Hchecked) as Hrange.
  rewrite add_product_cases, Hchecked, Hlookup. simpl.
  split_and!.
  - unfold checked, stored_name in *. repeat case_match; simplify_eq. done.
  - unfold fetchall, append_entry.
    rewrite select_entries_insert_entry, select_entries_register_user.
    by rewrite decide_True, fmap_app.
  - intros Hnan. apply real_column_kept. unfold kept_as_written. rewrite Hnan. simpl.
    destruct (is_minus_zero grams) eqn:Hz; [|done].
    apply minus_zero_leb_zero in Hz. by rewrite Hz in Hrange.
  - unfold append_entry, insert_entry, select_user; simpl.
    apply select_user_register_user.
  - intros u Hu. unfold append_entry, insert_entry, register_user; simpl.
    destruct (select_user db _); [done|]. simpl. apply elem_of_app. by left.
  - done.
Qed.

(** No corrective reply can be taken for the confirmation. *)
Lemma corrective_is_not_added m rest : m ∈ CORRECTIVE → m ≠ "Добавлено: " +:+ rest.
Proof.
  unfold CORRECTIVE. rewrite !elem_of_cons, elem_of_nil.
  intros [->|[->|[->|[->|[->|[->|[->|[]]]]]]]]; discriminate.
Qed.

(** X8. The reply of [add_product] tells what happened to the ledger:
    either exactly one entry was appended and the reply starts with
    "Добавлено: ", or the database is unchanged and the reply is one of the
    seven corrective messages, none of which starts that way. *)
Theorem reply_says_added_iff_inserted cfg svc date_str db upd :
  ((∃ e rest,
      entries (fst (add_product cfg svc date_str db upd)) = entries db ++ [e]
      ∧ text (snd (add_product cfg svc date_str db upd)) = "Добавлено: " +:+ rest)
   ∨ (fst (add_product cfg svc date_str db upd) = db
      ∧ text (snd (add_product cfg svc date_str db upd)) ∈ CORRECTIVE))
  ∧ ∀ m rest, m ∈ CORRECTIVE → m ≠ "Добавлено: " +:+ rest.
Proof.
  split; [|apply corrective_is_not_added].
  rewrite add_product_cases.
  destruct (checked upd) as [[name grams]|].
  - destruct (lookup cfg svc name grams) as [n|].
    + left. unfold append_entry, insert_entry; simpl. rewrite entries_register_user.
      eexists _, _. split; [done|]. unfold added_text. reflexivity.
    + right. split; [done|]. simpl. unfold CORRECTIVE. repeat case_match; set_solver.
  - right. split; [done|]. simpl. unfold CORRECTIVE. repeat case_match; set_solver.
Qed.

(** X5. [get_nutrition] never raises. It returns [None] exactly when the
    request raises or its answer has no 'totalNutrients' or an empty one;
    when it returns values, the answer had nutrients, the calories are those
    of the answer and each of protein, fat and carbohydrate is the
    'quantity' under its code ('PROCNT', 'FAT', 'CHOCDF'), with 0 standing
    for whatever is absent. *)
Theorem get_nutrition_outcome cfg svc name grams :
  (get_nutrition cfg svc name grams = None ↔
   ∀ data, requests_get svc
             (<["app_id" := EDAMAM_APP_ID cfg]>
               (<["app_key" := EDAMAM_APP_KEY cfg]>
                 (<["ingr" := str_of_float grams +:+ "g " +:+ name]> ∅))) = Json data →
           data_totalNutrients data = None ∨ data_totalNutrients data = Some ∅)
  ∧ ∀ n, get_nutrition cfg svc name grams = Some n →
      ∃ data nutrients,
        requests_get svc
          (<["app_id" := EDAMAM_APP_ID cfg]>
            (<["app_key" := EDAMAM_APP_KEY cfg]>
              (<["ingr" := str_of_float grams +:+ "g " +:+ name]> ∅))) = Json data
        ∧ data_totalNutrients data = Some nutrients
        ∧ kalorii n = default 0%float (data_calories data)
        ∧ belki n = default 0%float (nutrients !! "PROCNT" ≫= (.!! "quantity"))
        ∧ zhiry n = default 0%float (nutrients !! "FAT" ≫= (.!! "quantity"))
        ∧ uglevody n = default 0%float (nutrients !! "CHOCDF" ≫= (.!! "quantity")).
Proof.
  split; [apply get_nutrition_None|].
  unfold get_nutrition. intros n.
  destruct (requests_get svc _) as [| |data]; try done.
  destruct (data_totalNutrients data) as [nutrients|] eqn:Hn; [|done].
  case_decide; [done|]. intros [= <-].
  exists data, nutrients. simpl. split_and!; try done.
  - by destruct (nutrients !! "PROCNT").
  - by destruct (nutrients !! "FAT").
  - by destruct (nutrients !! "CHOCDF").
Qed.

End Further_submissions.

(** ** Further properties of reports *)

Lemma string_app_nil_r (s : string) : s +:+ "" = s.
Proof.
  induction s as [|a s IH]; [done|].
  change (String a (s +:+ "") = String a s). by f_equal.
Qed.

Lemma string_app_assoc (s1 s2 s3 : string) : (s1 +:+ s2) +:+ s3 = s1 +:+ (s2 +:+ s3).
Proof.
  induction s1 as [|a s1 IH]; [done|].
  change (String a ((s1 +:+ s2) +:+ s3) = String a (s1 +:+ (s2 +:+ s3))). by f_equal.
Qed.

Lemma join_empty_cons (s : string) (l : list string) : join "" (s :: l) = s +:+ join "" l.
Proof.
  unfold join. destruct l as [|s' l]; simpl; [by rewrite string_app_nil_r | done].
Qed.

Lemma join_empty_app (l1 l2 : list string) : join "" (l1 ++ l2) = join "" l1 +:+ join "" l2.
Proof.
  induction l1 as [|s l1 IH]; [done|].
  rewrite <- app_comm_cons, !join_empty_cons, IH. by rewrite string_app_assoc.
Qed.

(** 0 + x is x, but for the negative zero. *)
Lemma float_zero_add (x : float) : is_minus_zero x = false → (0 + x)%float = x.
Proof.
  unfold is_minus_zero. intros Hx. apply Prim2SF_inj.
  rewrite FloatAxioms.add_spec.
  change (Prim2SF 0) with (S754_zero false). unfold SF64add, SFadd.
  destruct (Prim2SF x) as [s|s| |s m e]; try done. by subst s.
Qed.

Section Further_reports.
Context `{PyRuntime}.

Lemma report_step_lines (t : totals) (l : list string) (rows : list row) :
  snd (foldl report_step (t, l) rows) = l ++ (entry_line <$> rows).
Proof.
  revert t l. induction rows as [|r rows IH]; intros t l; simpl.
  - by rewrite app_nil_r.
  - destruct r as [[[[[product amount] calories] proteins] fats] carbs].
    simpl. rewrite IH. by rewrite <- app_assoc.
Qed.

(** The text of a report, piece by piece. *)
Lemma report_text_shape (title date_str : string) (rows : list row) :
  report_text title date_str rows =
  title +:+ date_str +:+ ":*" +:+ nl +:+
  join "" (entry_line <$> rows) +:+ totals_block (column_sums rows).
Proof.
  unfold report_text, report_loop.
  pose proof (report_step_totals zero_totals [title +:+ date_str +:+ ":*" +:+ nl] rows) as Ht.
  pose proof (report_step_lines zero_totals [title +:+ date_str +:+ ":*" +:+ nl] rows) as Hl.
  destruct (foldl report_step _ rows) as [t report_lines]. simpl in Ht, Hl. subst.
  rewrite join_empty_app, !join_empty_cons.
  change (join "" []) with "". rewrite string_app_nil_r, !string_app_assoc.
  reflexivity.
Qed.

(** X12. The text of a report is its title, the date, ":*" and a line
    feed, then the lines of the rows in the order of the query, one per row,
    then the totals block over the left-to-right sums of the four nutrient
    columns; the report on demand and the automatic one over the same rows
    differ in the title only. *)
Theorem report_text_layout (date_str : string) (rows : list row) :
  ∃ body,
    body = date_str +:+ ":*" +:+ nl +:+
           join "" (entry_line <$> rows) +:+ totals_block (column_sums rows)
    ∧ report_text REPORT_TITLE date_str rows = REPORT_TITLE +:+ body
    ∧ report_text DAILY_TITLE date_str rows = DAILY_TITLE +:+ body.
Proof.
  eexists. split; [reflexivity|]. split; apply report_text_shape.
Qed.

(** X14. With one entry for the day the totals of the report are the
    nutrient values of that entry, bit for bit, provided none is the
    negative zero (for which 0 + x gives the positive zero). *)
Theorem single_entry_totals (title_line product : string) (amount calories proteins fats carbs : float) :
  is_minus_zero calories = false → is_minus_zero proteins = false →
  is_minus_zero fats = false → is_minus_zero carbs = false →
  fst (report_loop title_line [(product, amount, calories, proteins, fats, carbs)]) =
  {| total_calories := calories; total_proteins := proteins;
     total_fats := fats; total_carbs := carbs |}.
Proof.
  intros Hc Hp Hf Hu. unfold report_loop. simpl.
  by rewrite !float_zero_add.
Qed.

(** X10. What the daily job delivers is always a prefix of its plan, one
    message per row of the snapshot of [users] in the order of the snapshot,
    each to the chat of its row; the job ends without exception exactly when
    the whole plan was delivered, and every message it counts as sent was
    accepted by the notifier. *)
Theorem daily_job_sends_a_prefix send date_str db :
  let plan := daily_post date_str db <$> select_all_users db in
  let c := scheduled_daily_report send date_str db in
  sent c `prefix_of` plan
  ∧ (raised c = false ↔ sent c = plan)
  ∧ Forall (λ post, send post.1 post.2 = Delivered) (sent c).
Proof.
  intros plan c. subst plan c. unfold scheduled_daily_report.
  induction (select_all_users db) as [|[chat uid] us (IH1 & IH2 & IH3)]; [done|].
  rewrite broadcast_cons, fmap_cons.
  destruct (send chat _) eqn:Hsend; simpl.
  - split_and!.
    + by apply prefix_cons.
    + rewrite IH2. split; [by intros -> | by intros [= ?]].
    + by constructor.
  - split_and!; [apply prefix_nil | done | done].
Qed.

End Further_reports.

(** ** The scenarios, run *)

Section Runs.
Import Scenario.
#[local] Existing Instance Reference.runtime.
#[local] Open Scope Z_scope.
#[local] Set Warnings "-inexact-float".

(** Scenario A: one submission, and the report the user then gets. *)
Lemma scenario_A_report :
  select_entries (run cfg empty_database [OnText online today (says 1 10 "Яблоко 200")])
    1 today =
  [("яблоко", 200%float, 104%float, 0.5%float, 0.3%float, 28%float)]
  ∧ report today (run cfg empty_database [OnText online today (says 1 10 "Яблоко 200")])
      (says 1 10 "/report") =
    markdown
      ("📊 *Отчет за 2024-05-01:*" +:+ nl +:+
       "- Яблоко: 200.0 г" +:+ nl +:+
       "  Калории: 104.00 ккал, Б: 0.50 г, Ж: 0.30 г, У: 28.00 г" +:+ nl +:+ nl +:+
       "*Итого за день:*" +:+ nl +:+
       "Калории: 104.00 ккал" +:+ nl +:+
       "Белки: 0.50 г" +:+ nl +:+
       "Жиры: 0.30 г" +:+ nl +:+
       "Углеводы: 28.00 г").
Proof. split; vm_compute; reflexivity. Qed.

(** Scenario C, with the writes of other users and days in between. *)
Lemma scenario_C_rows :
  select_entries (apply_ops empty_database interleaved) 3 today =
  [("рис", 100%float, 100%float, 2%float, 0.5%float, 22%float);
   ("хлеб", 50%float, 150%float, 4%float, 1.5%float, 25%float)].
Proof. rewrite select_entries_apply_ops. reflexivity. Qed.



Lemma report_totals_are_sums_witness :
  select_entries empty_database 3 today = []
  ∧ fst (report_loop "" (select_entries (apply_ops empty_database interleaved) 3 today)) =
    {| total_calories := 250; total_proteins := 6; total_fats := 2; total_carbs := 47 |}.
Proof.
  split; [reflexivity|].
  apply (report_totals_are_sums empty_database interleaved 3 today ""). reflexivity.
Defined.

Lemma registration_idempotent_witness :
  user_rows (fst (start (fst (start empty_database (says 1 10 "/start")))
                        (says 1 99 "/start"))) 1 =
  [{| user_id := 1; chat_id := 10 |}].
Proof.
  apply (registration_idempotent empty_database (says 1 10 "/start") (says 1 99 "/start"));
    reflexivity.
Defined.

(** C1 fails as stated: the cycle stops at chat 20, and user 3, next in the
    snapshot and reachable, is sent nothing. *)
Lemma later_user_gets_no_report :
  select_all_users three_users = [(10, 1); (20, 2); (30, 3)]
  ∧ chat_20_unreachable 30 (daily_message today three_users 3) = Delivered
  ∧ scheduled_daily_report chat_20_unreachable today three_users =
    {| sent := [(10, daily_message today three_users 1)]; raised := true |}.
Proof. split_and!; vm_compute; reflexivity. Qed.

Lemma delivery_failure_ends_cycle_witness :
  select_all_users three_users = [(10, 1)] ++ (20, 2) :: [(30, 3)]
  ∧ scheduled_daily_report chat_20_unreachable today three_users =
    {| sent := daily_post today three_users <$> [(10, 1)]; raised := true |}.
Proof.
  assert (select_all_users three_users = [(10, 1)] ++ (20, 2) :: [(30, 3)]) as Husers
    by (vm_compute; reflexivity).
  split; [exact Husers|].
  apply (delivery_failure_ends_cycle chat_20_unreachable today three_users
           [(10, 1)] [(30, 3)] (20, 2) Husers).
  - repeat constructor.
  - reflexivity.
Defined.

(** C3 fails as stated: the name is stored in lower case, with single
    spaces, not as it was entered. *)
Lemma stored_name_differs :
  product <$> entries (fst (add_product cfg online today empty_database
                              (says 1 10 "Куриная  Грудка 200"))) =
  ["куриная грудка"]
  ∧ String.eqb "куриная грудка" "Куриная  Грудка" = false.
Proof. split; vm_compute; reflexivity. Qed.

Lemma stored_name_is_normalised_witness :
  ∃ e tail,
    entries (fst (add_product cfg online today empty_database
                    (says 1 10 "Куриная  Грудка 200"))) = [e]
    ∧ product e = "куриная грудка"
    ∧ entry_line (row_of_entry e) = "- " +:+ "Куриная грудка" +:+ tail.
Proof.
  destruct (stored_name_is_normalised cfg online today empty_database
              (says 1 10 "Куриная  Грудка 200"))
    as (e & tail & He & Hp & Hl).
  - vm_compute. discriminate.
  - exists e, tail. split_and!; [exact He | exact Hp |].
    rewrite Hl, Hp. reflexivity.
Defined.

Lemma empty_day_message_witness :
  select_entries three_users 2 today = []
  ∧ report today three_users (says 2 20 "/report") = plain NOTHING_TODAY
  ∧ sent (scheduled_daily_report (λ _ _, Delivered) today three_users) !! 1%nat =
    Some (20, plain NOTHING_TODAY).
Proof.
  assert (select_entries three_users 2 today = []) as Hnone by (vm_compute; reflexivity).
  destruct (empty_day_message today three_users (says 2 20 "/report") Hnone)
    as (Hreport & _ & Hdaily).
  split_and!; [exact Hnone | exact Hreport |].
  destruct (sent (scheduled_daily_report (λ _ _, Delivered) today three_users) !! 1%nat)
    as [post|] eqn:Hpost.
  - f_equal. apply (Hdaily (λ _ _, Delivered) 1%nat 20 post); [|exact Hpost].
    vm_compute. reflexivity.
  - vm_compute in Hpost. discriminate Hpost.
Defined.

Lemma lookup_failure_keeps_ledger_witness :
  fst (add_product cfg translator_down today three_users (says 1 10 "яблоко 200")) = three_users
  ∧ snd (add_product cfg translator_down today three_users (says 1 10 "яблоко 200")) ∈
      [plain TRANSLATION_ERROR; plain TRANSLATION_EMPTY; plain LOOKUP_FAILED].
Proof.
  apply (lookup_failure_keeps_ledger cfg translator_down today three_users
           (says 1 10 "яблоко 200") 200%float).
  - vm_compute. discriminate.
  - vm_compute. lia.
  - vm_compute. reflexivity.
  - reflexivity.
  - reflexivity.
  - reflexivity.
Defined.

(** The same rows under another user of another ledger give the same text. *)
Lemma report_determined_by_rows_witness :
  select_entries three_users 1 today =
  select_entries (apply_ops empty_database [AppendEntry 7 70 today "яблоко" 200 apple]) 7 today
  ∧ report today three_users (says 1 10 "/report") =
    report today (apply_ops empty_database [AppendEntry 7 70 today "яблоко" 200 apple])
      (says 7 70 "/report")
  ∧ daily_message today three_users 1 =
    daily_message today
      (apply_ops empty_database [AppendEntry 7 70 today "яблоко" 200 apple]) 7.
Proof.
  assert (select_entries three_users 1 today =
          select_entries (apply_ops empty_database [AppendEntry 7 70 today "яблоко" 200 apple])
            7 today) as Hrows by (vm_compute; reflexivity).
  split; [exact Hrows|].
  exact (report_determined_by_rows today three_users _
           (says 1 10 "/report") (says 7 70 "/report") Hrows).
Defined.

Lemma missing_configuration_is_fatal_witness :
  no_token !! "BOT_TOKEN" = None
  ∧ load_config no_token = Raised (ValueError CONFIG_ERROR)
  ∧ boot no_token None = Stopped (ValueError CONFIG_ERROR).
Proof.
  assert (no_token !! "BOT_TOKEN" = None) as Hnone by (vm_compute; reflexivity).
  split; [exact Hnone|].
  apply (missing_configuration_is_fatal no_token "BOT_TOKEN" None); [|exact Hnone].
  set_solver.
Defined.

(** C10. The message "яблоко nan" passes the checks of [add_product]:
    [float] reads its last word as NaN, for which both comparisons of the
    range check are false, so the lookup is made and an entry is inserted,
    although the quantity is not in (0, 5000]. *)
Theorem nan_quantity_is_accepted :
  py_float "nan" = Some nan
  ∧ (nan <=? 0)%float || (5000 <? nan)%float = false
  ∧ ((0 <? nan)%float && (nan <=? 5000)%float) = false
  ∧ length (entries (fst (add_product cfg online today empty_database
                            (says 1 10 "яблоко nan")))) = 1%nat
  ∧ text (snd (add_product cfg online today empty_database (says 1 10 "яблоко nan"))) =
    "Добавлено: яблоко - nan г" +:+ nl +:+
    "Калории: 104.00 ккал" +:+ nl +:+
    "Белки: 0.50 г, Жиры: 0.30 г, Углеводы: 28.00 г".
Proof. split_and!; vm_compute; reflexivity. Qed.

Lemma run_unique_witness :
  users_unique three_users
  ∧ users_unique (run cfg three_users
                    [OnStart (says 2 99 "/start");
                     OnText online today (says 4 40 "яблоко 100")]).
Proof.
  assert (users_unique three_users) as Hu
    by (unfold users_unique; apply (bool_decide_unpack _); vm_compute; exact I).
  split; [exact Hu|]. by apply run_unique.
Defined.

Lemma run_entry_ids_fresh_witness :
  entry_ids_fresh three_users
  ∧ entry_ids_fresh (run cfg three_users
                       [OnText online today (says 1 10 "яблоко 100");
                        OnText online today (says 4 40 "яблоко 100")]).
Proof.
  assert (entry_ids_fresh three_users) as Hf.
  { unfold entry_ids_fresh. split; [apply (bool_decide_unpack _); vm_compute; exact I|].
    vm_compute. repeat constructor; discriminate. }
  split; [exact Hf|]. by apply run_entry_ids_fresh.
Defined.

Lemma run_keeps_references_witness :
  entries_reference_users three_users
  ∧ entries_reference_users (run cfg three_users
                               [OnText online today (says 4 40 "яблоко 100")]).
Proof.
  assert (entries_reference_users three_users) as Hr
    by (vm_compute; repeat constructor; eauto).
  split; [exact Hr|]. by apply run_keeps_references.
Defined.

Lemma registration_survives_witness :
  user_rows (run cfg (fst (start empty_database (says 1 10 "/start")))
               [OnStart (says 1 99 "/start");
                OnText online today (says 1 77 "яблоко 200")]) 1 =
  [{| user_id := 1; chat_id := 10 |}].
Proof.
  apply (registration_survives cfg empty_database (says 1 10 "/start")). reflexivity.
Defined.

Lemma accepted_submission_is_recorded_witness :
  checked (says 2 20 "яблоко 200") = Some ("яблоко", 200%float)
  ∧ lookup cfg online "яблоко" 200 = Some apple
  ∧ fetchall (fst (add_product cfg online today three_users (says 2 20 "яблоко 200")))
      2 today =
    fetchall three_users 2 today ++
      [("яблоко", real_column 200, real_column (kalorii apple), real_column (belki apple),
        real_column (zhiry apple), real_column (uglevody apple))].
Proof.
  assert (checked (says 2 20 "яблоко 200") = Some ("яблоко", 200%float)) as Hc
    by (vm_compute; reflexivity).
  assert (lookup cfg online "яблоко" 200 = Some apple) as Hl by (vm_compute; reflexivity).
  split; [exact Hc|]. split; [exact Hl|].
  exact (proj1 (proj2 (accepted_submission_is_recorded cfg online today three_users
                         (says 2 20 "яблоко 200") "яблоко" 200%float apple Hc Hl))).
Defined.

Lemma invalid_submission_is_answered_locally_witness :
  checked (says 1 10 "яблоко много") = None
  ∧ ∃ m, m ∈ [ASK_INPUT; ASK_TWO_PARTS; ASK_NUMBER; ASK_RANGE]
         ∧ ∀ cfg svc date_str db,
             add_product cfg svc date_str db (says 1 10 "яблоко много") = (db, plain m).
Proof.
  assert (checked (says 1 10 "яблоко много") = None) as Hc by (vm_compute; reflexivity).
  split; [exact Hc|].
  exact (invalid_submission_is_answered_locally (says 1 10 "яблоко много") Hc).
Defined.

Lemma report_unaffected_by_others_witness :
  Forall (λ ev, ¬ text_of 1 today ev)
    [OnText online today (says 3 30 "яблоко 200");
     OnText online "2024-05-02" (says 1 10 "яблоко 100");
     OnStart (says 5 50 "/start")]
  ∧ report today
      (run cfg three_users
         [OnText online today (says 3 30 "яблоко 200");
          OnText online "2024-05-02" (says 1 10 "яблоко 100");
          OnStart (says 5 50 "/start")])
      (says 1 10 "/report") =
    report today three_users (says 1 10 "/report").
Proof.
  assert (Forall (λ ev, ¬ text_of 1 today ev)
            [OnText online today (says 3 30 "яблоко 200");
             OnText online "2024-05-02" (says 1 10 "яблоко 100");
             OnStart (says 5 50 "/start")]) as Hothers.
  { rewrite !Forall_cons, Forall_nil. simpl.
    split_and!; [intros [Hu _]; discriminate Hu | intros [_ Hd]; discriminate Hd
                | intros [] | exact I]. }
  split; [exact Hothers|].
  exact (proj1 (report_unaffected_by_others cfg _ three_users today
                  (says 1 10 "/report") Hothers)).
Defined.

Lemma single_entry_totals_witness :
  fst (report_loop "" [("яблоко", 200%float, 104%float, 0.5%float, 0.3%float, 28%float)]) =
  {| total_calories := 104; total_proteins := 0.5; total_fats := 0.3; total_carbs := 28 |}.
Proof. apply single_entry_totals; reflexivity. Defined.

End Runs.
